(** * Resumable hyperparameter search of [examples/movielens_sequence]

    A shallow embedding of [movielens_sequence.py]: the [Results] store
    (fingerprint, save, lookup, membership, iteration, best), the three
    samplers and the search driver [run], followed by the properties of
    the written specification that were checked against them. *)

From Stdlib Require Import ZArith QArith Lia List Ascii String.
From stdpp Require Import base option list gmap strings sorting.

Close Scope Q_scope.
Set Warnings "-register-all".

(** ** Python values and exceptions *)

Module Py.

(** A finite Python [float], written as the decimal that [repr] prints
    for it: [fl_mant * 10 ^ fl_exp], the mantissa carrying no trailing
    zero (and [0.0] being [0 * 10 ^ 0]).  Every finite double has exactly
    one such shortest decimal, which is what [json.dumps] writes and
    [json.loads] reads back; [nan], the infinities and [-0.0] are left
    out. *)
Record pyfloat := PyFloat { fl_mant : Z; fl_exp : Z }.

(** The values a hyperparameter set or a stored record holds: what
    [json] can write and read back. *)
Inductive value :=
| VNone
| VBool (b : bool)
| VInt (z : Z)
| VFloat (f : pyfloat)
| VStr (s : string)
| VList (l : list value).

#[global] Instance pyfloat_eq_dec : EqDecision pyfloat.
Proof. solve_decision. Defined.

Fixpoint value_eq_dec (x y : value) : {x = y} + {x <> y}.
Proof.
  decide equality.
  - apply bool_eq_dec.
  - apply Z.eq_dec.
  - apply pyfloat_eq_dec.
  - apply String.eq_dec.
  - apply (list_eq_dec (A := value) (dec := value_eq_dec)).
Defined.

#[global] Instance value_eq : EqDecision value := value_eq_dec.

(** A [dict] with [str] keys, in insertion order. *)
Definition dict := list (string * value).

Inductive exn :=
| KeyError
| TypeError
| IndexError
| FileNotFoundError
| NameError (name : string)
| ValueError (msg : string).

Inductive result (A : Type) :=
| Ok (a : A)
| Raise (e : exn).
Arguments Ok {A} a.
Arguments Raise {A} e.

#[global] Instance exn_eq_dec : EqDecision exn.
Proof. solve_decision. Defined.

#[global] Instance result_eq_dec {A} `{EqDecision A} : EqDecision (result A).
Proof. solve_decision. Defined.

Definition bind {A B} (m : result A) (k : A -> result B) : result B :=
  match m with
  | Ok a => k a
  | Raise e => Raise e
  end.

Fixpoint mapM {A B} (f : A -> result B) (l : list A) : result (list B) :=
  match l with
  | [] => Ok []
  | x :: l' =>
      bind (f x) (fun y => bind (mapM f l') (fun ys => Ok (y :: ys)))
  end.

(** [d[k]] *)
Fixpoint dict_get (k : string) (d : dict) : option value :=
  match d with
  | [] => None
  | (k', v) :: d' => if String.eqb k k' then Some v else dict_get k d'
  end.

Definition getitem (d : dict) (k : string) : result value :=
  match dict_get k d with
  | Some v => Ok v
  | None => Raise KeyError
  end.

(** [d[k] = v]: an existing key keeps its place, a new one goes last. *)
Fixpoint dict_setitem (k : string) (v : value) (d : dict) : dict :=
  match d with
  | [] => [(k, v)]
  | (k', v') :: d' =>
      if String.eqb k k' then (k', v) :: d'
      else (k', v') :: dict_setitem k v d'
  end.

(** [d.update(other)] *)
Definition dict_update (d other : dict) : dict :=
  fold_left (fun acc kv => dict_setitem (fst kv) (snd kv) acc) other d.

Fixpoint dict_remove (k : string) (d : dict) : dict :=
  match d with
  | [] => []
  | (k', v) :: d' =>
      if String.eqb k k' then d' else (k', v) :: dict_remove k d'
  end.

(** [del d[k]] *)
Definition delitem (d : dict) (k : string) : result dict :=
  match dict_get k d with
  | Some _ => Ok (dict_remove k d)
  | None => Raise KeyError
  end.

Definition keys (d : dict) : list string := map fst d.

(** A [dict] holds every key once. *)
Definition wf_dict (d : dict) : Prop := NoDup (keys d).

(** [num / den] rounded to the nearest integer, a tie going to the even
    one. *)
Definition round_half_even (num den : Z) : Z :=
  let q := (num / den)%Z in
  let r := (num mod den)%Z in
  if (2 * r <? den)%Z then q
  else if (den <? 2 * r)%Z then (q + 1)%Z
  else if Z.even q then q else (q + 1)%Z.

(** The exponent [k] of the binary64 grid around [num / den > 0]: the
    doubles near it are the multiples of [2 ^ k], where [k] is 52 below
    the binary logarithm of the ratio and never below -1074, the
    subnormal spacing. *)
Definition binary_exponent (num den : Z) : Z :=
  let l := (Z.log2 num - Z.log2 den)%Z in
  let l := if (if (0 <=? l)%Z then (den * 2 ^ l <=? num)%Z
               else (den <=? num * 2 ^ (- l))%Z)
           then l else (l - 1)%Z in
  Z.max (l - 52) (-1074).

(** The double nearest to [num / den > 0] (round half to even), as the
    rational it is. *)
Definition double_of_ratio (num den : Z) : Q :=
  let k := binary_exponent num den in
  let m := if (0 <=? k)%Z then round_half_even num (den * 2 ^ k)
           else round_half_even (num * 2 ^ (- k)) den in
  if (0 <=? k)%Z then inject_Z (m * 2 ^ k)
  else Qmake m (Z.to_pos (2 ^ (- k))).

(** The number a float is: the double that its decimal denotes, which
    is the one nearest to the decimal and seldom the decimal itself
    ([0.1] is [3602879701896397 / 2 ^ 55], and [2.0 ** 70], printed
    [1.1805916207174113e+21], is [2 ^ 70]).  Python compares a [float]
    with a [float] or an [int] on these exact values. *)
Definition float_to_Q (f : pyfloat) : Q :=
  let m := fl_mant f in
  let e := fl_exp f in
  if (m =? 0)%Z then 0%Q
  else
    let a := Z.abs m in
    let v := if (0 <=? e)%Z then double_of_ratio (a * 10 ^ e) 1
             else double_of_ratio a (10 ^ (- e)) in
    if (m <? 0)%Z then Qopp v else v.

(** The number a value stands for in arithmetic ([bool] is an [int]). *)
Definition to_number (v : value) : result Q :=
  match v with
  | VBool b => Ok (inject_Z (if b then 1 else 0))
  | VInt z => Ok (inject_Z z)
  | VFloat f => Ok (float_to_Q f)
  | VNone | VStr _ | VList _ => Raise TypeError
  end.

(** Unary minus, as a number. *)
Definition neg (v : value) : result Q :=
  bind (to_number v) (fun q => Ok (Qopp q)).

Definition Qltb (a b : Q) : bool := negb (Qle_bool b a).

(** [sorted(l, key=...)] once the keys are computed: Python's sort is
    stable and compares keys with [<] only.  On keys that are totally
    preordered every stable sort returns the same list; this one inserts
    from the right. *)
Section Sorted.
Context {A K : Type} (ltb : K -> K -> bool).

Fixpoint insert_sorted (x : K * A) (l : list (K * A)) : list (K * A) :=
  match l with
  | [] => [x]
  | y :: l' =>
      if ltb (fst y) (fst x) then y :: insert_sorted x l'
      else x :: y :: l'
  end.

Definition sort_pairs (l : list (K * A)) : list (K * A) :=
  foldr insert_sorted [] l.

(** The order the sort leaves two neighbours in. *)
Definition key_le (a b : K * A) : Prop := ltb (fst b) (fst a) = false.
End Sorted.

Definition sorted {A} (key : A -> result Q) (l : list A)
  : result (list A) :=
  bind (mapM key l) (fun ks => Ok (map snd (sort_pairs Qltb (combine ks l)))).

(** [range(n)] *)
Definition range (n : Z) : list Z := map Z.of_nat (seq 0 (Z.to_nat n)).

(** [a ** b] on [int]s with [b >= 0]. *)
Definition pow (a b : Z) : Z := (a ^ b)%Z.

(** Decimal digits of a natural number, most significant first. *)
Fixpoint digits_fuel (fuel : nat) (n : Z) (acc : list Z) : list Z :=
  match fuel with
  | O => acc
  | S fuel' =>
      if (n <? 10)%Z then n :: acc
      else digits_fuel fuel' (n / 10)%Z ((n mod 10)%Z :: acc)
  end.

Definition digits (n : Z) : list Z :=
  digits_fuel (S (Z.to_nat (Z.log2 n))) n [].

Definition digit_char (d : Z) : ascii := ascii_of_N (Z.to_N (48 + d)).

Definition string_of_digits (ds : list Z) : string :=
  string_of_list_ascii (map digit_char ds).

(** [str(n)] for an [int]. *)
Definition str_int (n : Z) : string :=
  if (n <? 0)%Z then String "-" (string_of_digits (digits (- n)))
  else string_of_digits (digits n).

(** [repr(f)] for a finite [float]: positional between [1e-4] and
    [1e16], with an exponent of at least two digits outside. *)
Definition repr_float (f : pyfloat) : string :=
  let m := fl_mant f in
  if (m =? 0)%Z then "0.0"
  else
    let ds := digits (Z.abs m) in
    let n := Z.of_nat (length ds) in
    let decpt := (n + fl_exp f)%Z in
    let sign := if (m <? 0)%Z then "-" else "" in
    let zeros k := string_of_digits (repeat 0%Z (Z.to_nat k)) in
    let body :=
      if ((decpt <=? -4) || (16 <? decpt))%Z then
        let e := (decpt - 1)%Z in
        let es := string_of_digits (digits (Z.abs e)) in
        string_of_digits (take 1 ds)
        +:+ (if (1 <? n)%Z then "." +:+ string_of_digits (drop 1 ds) else "")
        +:+ "e" +:+ (if (e <? 0)%Z then "-" else "+")
        +:+ (if (Z.abs e <? 10)%Z then "0" else "") +:+ es
      else if (decpt <=? 0)%Z then
        "0." +:+ zeros (- decpt)%Z +:+ string_of_digits ds
      else if (n <=? decpt)%Z then
        string_of_digits ds +:+ zeros (decpt - n)%Z +:+ ".0"
      else
        string_of_digits (take (Z.to_nat decpt) ds) +:+ "."
        +:+ string_of_digits (drop (Z.to_nat decpt) ds) in
    sign +:+ body.

(** [os.path.join(a, b, c)] on POSIX. *)
Definition startswith_sep (s : string) : bool :=
  match s with
  | String "/" _ => true
  | _ => false
  end.

Fixpoint endswith_sep (s : string) : bool :=
  match s with
  | EmptyString => false
  | String c EmptyString => Ascii.eqb c "/"
  | String _ s' => endswith_sep s'
  end.

Definition path_join2 (path b : string) : string :=
  if startswith_sep b then b
  else if String.eqb path "" || endswith_sep path then path +:+ b
  else path +:+ "/" +:+ b.

Definition path_join (a : option string) (p : list string)
  : result string :=
  match a with
  | None => Raise TypeError
  | Some a => Ok (fold_left path_join2 p a)
  end.

(** ["%3d" % n]: right-justified in three columns. *)
Definition format_3d (n : Z) : string :=
  let s := str_int n in
  string_of_list_ascii (repeat " "%char (3 - String.length s)) +:+ s.

End Py.
Export Py.

Notation "'let*' x ':=' m 'in' k" := (Py.bind m (fun x => k))
  (at level 10, x name, m at level 100, k at level 200).


(** ** [hashlib.md5]: the MD5 digest of RFC 1321, on 32-bit words *)

Module MD5.
Local Open Scope Z_scope.

Definition wrap32 (x : Z) : Z := x mod 2 ^ 32.
Definition not32 (x : Z) : Z := Z.lxor x 0xffffffff.
Definition rotl32 (x c : Z) : Z :=
  Z.lor (wrap32 (Z.shiftl x c)) (Z.shiftr x (32 - c)).

Definition K : list Z :=
  [ 0xd76aa478; 0xe8c7b756; 0x242070db; 0xc1bdceee;
    0xf57c0faf; 0x4787c62a; 0xa8304613; 0xfd469501;
    0x698098d8; 0x8b44f7af; 0xffff5bb1; 0x895cd7be;
    0x6b901122; 0xfd987193; 0xa679438e; 0x49b40821;
    0xf61e2562; 0xc040b340; 0x265e5a51; 0xe9b6c7aa;
    0xd62f105d; 0x02441453; 0xd8a1e681; 0xe7d3fbc8;
    0x21e1cde6; 0xc33707d6; 0xf4d50d87; 0x455a14ed;
    0xa9e3e905; 0xfcefa3f8; 0x676f02d9; 0x8d2a4c8a;
    0xfffa3942; 0x8771f681; 0x6d9d6122; 0xfde5380c;
    0xa4beea44; 0x4bdecfa9; 0xf6bb4b60; 0xbebfbc70;
    0x289b7ec6; 0xeaa127fa; 0xd4ef3085; 0x04881d05;
    0xd9d4d039; 0xe6db99e5; 0x1fa27cf8; 0xc4ac5665;
    0xf4292244; 0x432aff97; 0xab9423a7; 0xfc93a039;
    0x655b59c3; 0x8f0ccc92; 0xffeff47d; 0x85845dd1;
    0x6fa87e4f; 0xfe2ce6e0; 0xa3014314; 0x4e0811a1;
    0xf7537e82; 0xbd3af235; 0x2ad7d2bb; 0xeb86d391 ].

Definition shifts : list Z :=
  [ 7; 12; 17; 22; 7; 12; 17; 22; 7; 12; 17; 22; 7; 12; 17; 22;
    5; 9; 14; 20; 5; 9; 14; 20; 5; 9; 14; 20; 5; 9; 14; 20;
    4; 11; 16; 23; 4; 11; 16; 23; 4; 11; 16; 23; 4; 11; 16; 23;
    6; 10; 15; 21; 6; 10; 15; 21; 6; 10; 15; 21; 6; 10; 15; 21 ].

Definition state : Type := Z * Z * Z * Z.

Definition init : state :=
  (0x67452301, 0xefcdab89, 0x98badcfe, 0x10325476).

Definition at_ (l : list Z) (i : Z) : Z := nth (Z.to_nat i) l 0.

(** One of the 64 operations on the block [M] of sixteen words. *)
Definition step (M : list Z) (st : state) (i : Z) : state :=
  let '(A, B, C, D) := st in
  let '(F, g) :=
    if i <? 16 then (Z.lor (Z.land B C) (Z.land (not32 B) D), i)
    else if i <? 32 then
      (Z.lor (Z.land D B) (Z.land (not32 D) C), (5 * i + 1) mod 16)
    else if i <? 48 then (Z.lxor (Z.lxor B C) D, (3 * i + 5) mod 16)
    else (Z.lxor C (Z.lor B (not32 D)), (7 * i) mod 16) in
  let F' := wrap32 (F + A + at_ K i + at_ M g) in
  (D, wrap32 (B + rotl32 F' (at_ shifts i)), B, C).

(** Little-endian bytes of a number, and back. *)
Fixpoint le_bytes (n : nat) (x : Z) : list Z :=
  match n with
  | O => []
  | S n' => x mod 256 :: le_bytes n' (x / 256)
  end.

Fixpoint le_word (bs : list Z) : Z :=
  match bs with
  | [] => 0
  | b :: bs' => b + 256 * le_word bs'
  end.

Fixpoint words (n : nat) (bs : list Z) : list Z :=
  match n with
  | O => []
  | S n' => le_word (take 4 bs) :: words n' (drop 4 bs)
  end.

Definition block (st : state) (bs : list Z) : state :=
  let M := words 16 bs in
  let '(A, B, C, D) := fold_left (step M) (map Z.of_nat (seq 0 64)) st in
  let '(a0, b0, c0, d0) := st in
  (wrap32 (a0 + A), wrap32 (b0 + B), wrap32 (c0 + C), wrap32 (d0 + D)).

Fixpoint blocks (n : nat) (st : state) (bs : list Z) : state :=
  match n with
  | O => st
  | S n' => blocks n' (block st (take 64 bs)) (drop 64 bs)
  end.

(** A one bit, zeros up to 56 modulo 64, then the bit length on 64 bits. *)
Definition pad (msg : list Z) : list Z :=
  let len := Z.of_nat (length msg) in
  msg ++ [0x80] ++ repeat 0 (Z.to_nat ((55 - len) mod 64))
      ++ le_bytes 8 ((8 * len) mod 2 ^ 64).

Definition digest (msg : list Z) : list Z :=
  let padded := pad msg in
  let '(a, b, c, d) := blocks (length padded / 64)%nat init padded in
  le_bytes 4 a ++ le_bytes 4 b ++ le_bytes 4 c ++ le_bytes 4 d.

Definition hex_char (d : Z) : ascii :=
  ascii_of_N (Z.to_N (if d <? 10 then 48 + d else 87 + d)).

Definition hex_byte (b : Z) : list ascii :=
  [hex_char (b / 16); hex_char (b mod 16)].

(** [hashlib.md5(data).hexdigest()] *)
Definition hexdigest (data : list Z) : string :=
  string_of_list_ascii (flat_map hex_byte (digest data)).

(** A lower-case hexadecimal digit. *)
Definition is_hex (c : ascii) : bool :=
  bool_decide (c ∈ list_ascii_of_string "0123456789abcdef").

End MD5.

(** ** [json.dumps] and [str.encode] *)

Module Json.

Definition code (c : ascii) : Z := Z.of_N (N_of_ascii c).

Definition quote : string := String (ascii_of_N 34) "".
Definition backslash : string := String (ascii_of_N 92) "".

(** A backslash, [u] and four hexadecimal digits. *)
Definition escape_u (n : Z) : string :=
  backslash +:+ "u" +:+ string_of_list_ascii
    (map MD5.hex_char
       [(n / 4096) mod 16; (n / 256) mod 16; (n / 16) mod 16; n mod 16]%Z).

(** What [ensure_ascii] writes for one character: the quote, the
    backslash and the five short escapes, the [u] form for everything else
    outside [' '..'~']. *)
Definition escape_char (c : ascii) : string :=
  let n := code c in
  if (n =? 34)%Z then backslash +:+ quote
  else if (n =? 92)%Z then backslash +:+ backslash
  else if (n =? 10)%Z then backslash +:+ "n"
  else if (n =? 13)%Z then backslash +:+ "r"
  else if (n =? 9)%Z then backslash +:+ "t"
  else if (n =? 8)%Z then backslash +:+ "b"
  else if (n =? 12)%Z then backslash +:+ "f"
  else if ((32 <=? n) && (n <=? 126))%Z then String c ""
  else escape_u n.

Fixpoint escape (s : string) : string :=
  match s with
  | EmptyString => ""
  | String c s' => escape_char c +:+ escape s'
  end.

Definition dumps_str (s : string) : string := quote +:+ escape s +:+ quote.

Definition join (sep : string) (l : list string) : string :=
  String.concat sep l.

Fixpoint dumps_value (v : value) : string :=
  match v with
  | VNone => "null"
  | VBool true => "true"
  | VBool false => "false"
  | VInt z => str_int z
  | VFloat f => repr_float f
  | VStr s => dumps_str s
  | VList l => "[" +:+ join ", " (map dumps_value l) +:+ "]"
  end.

Definition dumps_item (kv : string * value) : string :=
  dumps_str (fst kv) +:+ ": " +:+ dumps_value (snd kv).

(** [json.dumps(d)]: the items in the order the [dict] holds them. *)
Definition dumps (d : dict) : string :=
  "{" +:+ join ", " (map dumps_item d) +:+ "}".

(** [sorted(d.items())]: by key, [str] being compared by code point. *)
Definition sort_items (d : dict) : dict :=
  sort_pairs String.ltb d.

(** [json.dumps(d, sort_keys=True)] *)
Definition dumps_sorted (d : dict) : string := dumps (sort_items d).

(** [s.encode('utf-8')] for code points below 256. *)
Definition encode_char (c : ascii) : list Z :=
  let n := code c in
  if (n <? 128)%Z then [n]
  else [Z.lor 0xC0 (Z.shiftr n 6); Z.lor 0x80 (Z.land n 0x3F)].

Definition encode_utf8 (s : string) : list Z :=
  flat_map encode_char (list_ascii_of_string s).

End Json.


(** ** The result store: [class Results] *)

Module Results.

(** The files on disk.  A store file is kept as its lines, each line as
    the object [json.loads] decodes from it: on the values above
    [json.loads (json.dumps d)] is [d] again, keys in the order written. *)
Abbreviation fs := (gmap string (list dict)).

(** [self]: the object holds only [self._filename].  An object exists
    once [__init__] has opened its file, so under a name the operating
    system accepts. *)
Record t := Make { _filename : string }.

(** A file opened for appending is left as it is when it is there, and
    created empty when it is missing. *)
Definition touch (name : string) (files : fs) : fs :=
  match files !! name with
  | Some _ => files
  | None => <[name := []]> files
  end.

(** [open(name, 'a+')].  The operating system may refuse the name (a
    directory of the path is missing, the name is a directory, the
    permission is denied): [open_error name] is then the exception that
    [open] raises, and nothing is created. *)
Definition open_append (open_error : string -> option exn)
    (name : string) (files : fs) : result fs :=
  match open_error name with
  | Some e => Raise e
  | None => Ok (touch name files)
  end.

(** [open(name, 'r+')] and reading the lines: the file has to exist. *)
Definition read_lines (name : string) (files : fs) : result (list dict) :=
  match files !! name with
  | Some lines => Ok lines
  | None => Raise FileNotFoundError
  end.

(** [out.write(line + '\n')] on a file opened with ['a+']. *)
Definition write_line (name : string) (line : dict) (files : fs) : fs :=
  <[name := default [] (files !! name) ++ [line]]> files.

Definition __init__ (open_error : string -> option exn)
    (filename : string) (files : fs) : result (t * fs) :=
  let self := Make filename in
  let* files := open_append open_error (_filename self) files in
  Ok (self, files).

Definition _hash (x : dict) : string :=
  MD5.hexdigest (Json.encode_utf8 (Json.dumps_sorted x)).

Definition save (self : t) (hyperparams : dict)
    (test_mrr validation_mrr : value) (files : fs) : fs :=
  let result := [ ("test_mrr", test_mrr);
                  ("validation_mrr", validation_mrr);
                  ("hash", VStr (_hash hyperparams)) ] in
  let result := dict_update result hyperparams in
  write_line (_filename self) result files.

(** The line [save] writes. *)
Definition written (h : dict) (test_mrr validation_mrr : value) : dict :=
  dict_update [ ("test_mrr", test_mrr); ("validation_mrr", validation_mrr);
                ("hash", VStr (_hash h)) ] h.

(** Every line of a store written by [save] has a [hash] field. *)
Definition has_hash (d : dict) : Prop := is_Some (dict_get "hash" d).
Definition wf_store (lines : list dict) : Prop := Forall has_hash lines.

(** The [hash] fields of the lines of a store. *)
Definition hash_fields (lines : list dict) : list (option value) :=
  map (dict_get "hash") lines.

(** A line [best] can rank: it has a [hash] and a number as [test_mrr]. *)
Definition rankable (d : dict) : Prop :=
  has_hash d /\ exists q, (let* v := getitem d "test_mrr" in to_number v) = Ok q.

(** A hyperparameter set that is a [dict] and uses none of the keys
    [save] sets itself. *)
Definition plain (h : dict) : Prop :=
  wf_dict h /\
  Forall (fun k => k ∉ keys h) ["test_mrr"; "validation_mrr"; "hash"].

(** The number a record holds as [test_mrr]. *)
Definition score (d : dict) : result Q :=
  let* v := getitem d "test_mrr" in to_number v.

(** The score of a line, [0] standing in where it has none. *)
Definition score_or_zero (d : dict) : Q :=
  match score d with
  | Ok q => q
  | Raise _ => 0%Q
  end.

Definition __iter__ (self : t) (files : fs) : result (list dict) :=
  let* lines := read_lines (_filename self) files in
  mapM (fun datum => delitem datum "hash") lines.

Definition best (self : t) (files : fs) : result (option dict) :=
  let* xs := __iter__ self files in
  let* results :=
    sorted (fun x => let* v := getitem x "test_mrr" in neg v) xs in
  match results with
  | r :: _ => Ok (Some r)
  | [] => Ok None
  end.

(** [v == s] for a [str] [s]. *)
Definition eq_str (v : value) (s : string) : bool :=
  match v with
  | VStr s' => String.eqb s' s
  | _ => false
  end.

(** The loop of [__getitem__] over the lines. *)
Fixpoint scan (params_hash : string) (lines : list dict) : result dict :=
  match lines with
  | [] => Raise KeyError
  | datum :: rest =>
      let* h := getitem datum "hash" in
      if eq_str h params_hash then delitem datum "hash"
      else scan params_hash rest
  end.

Definition __getitem__ (self : t) (hyperparams : dict) (files : fs)
  : result dict :=
  let params_hash := _hash hyperparams in
  let* lines := read_lines (_filename self) files in
  scan params_hash lines.

Definition __contains__ (self : t) (x : dict) (files : fs) : result bool :=
  match __getitem__ self x files with
  | Ok _ => Ok true
  | Raise KeyError => Ok false
  | Raise e => Raise e
  end.

End Results.

(** ** The search spaces and the samplers *)

Module Sampler.
Local Open Scope Z_scope.

Definition len {A} (l : list A) : Z := Z.of_nat (length l).

Definition float (m e : Z) : value := VFloat (PyFloat m e).

Definition NUM_SAMPLES : Z := 100.

Definition LEARNING_RATES : list value :=
  [float 1 (-3); float 1 (-2); float 5 (-2); float 1 (-1)].
Definition LOSSES : list value :=
  [VStr "bpr"; VStr "hinge"; VStr "adaptive_hinge"; VStr "pointwise"].
Definition BATCH_SIZE : list value :=
  let l := [VInt 8; VInt 16; VInt 32; VInt 256] in
  drop (length l - 1) l.
Definition EMBEDDING_DIM : list value :=
  take 1 [VInt 8; VInt 16; VInt 32; VInt 64; VInt 128; VInt 256].
Definition N_ITER : list value := map (fun i => VInt (5 + i)) (range 15).
Definition L2 : list value :=
  [float 1 (-6); float 1 (-5); float 1 (-4); float 1 (-3); float 1 (-2);
   float 0 0].

(** A search space: for every parameter the list of its candidates. *)
Definition space := list (string * list value).

(** *** [sklearn.model_selection.ParameterGrid] over one [dict] of lists *)

(** [sorted(sub_grid.items())[::-1]] *)
Definition grid_items (sp : space) : space :=
  rev (sort_pairs String.ltb sp).

(** [len(ParameterGrid(sp))]: the product of the numbers of candidates. *)
Definition grid_size (sp : space) : Z :=
  fold_right (fun kv acc => len (snd kv) * acc) 1 sp.

(** The loop [ind, offset = divmod(ind, n); out[key] = v_list[offset]]
    over the items.  The keys of a [dict] differ, so every assignment
    adds an entry; [offset] is below [n], so the read is in range. *)
Fixpoint grid_point (items : space) (ind : Z) : dict :=
  match items with
  | [] => []
  | (key, v_list) :: rest =>
      let n := len v_list in
      (key, nth (Z.to_nat (ind mod n)) v_list VNone)
        :: grid_point rest (ind / n)
  end.

(** [ParameterGrid(sp)[ind]] *)
Definition ParameterGrid_getitem (sp : space) (ind : Z) : result dict :=
  if (0 <=? ind) && (ind <? grid_size sp) then
    Ok (grid_point (grid_items sp) ind)
  else Raise IndexError.

(** *** [sklearn.model_selection.ParameterSampler]

    When every parameter is given as a list, the sampler draws
    [n_iter] distinct points of the grid: it asks
    [sample_without_replacement(grid_size, n_iter, random_state)] for
    the indices and yields [param_grid[i]] for each.  A grid smaller
    than [n_iter] is sampled whole (with a warning; older releases
    raise [ValueError] there instead).  The index draw belongs to the
    random number generator and is a parameter here. *)
Section ParameterSampler.
Context {rng : Type}.
Variable sample_without_replacement : Z -> Z -> rng -> list Z * rng.

Definition ParameterSampler (sp : space) (n_iter : Z)
    (random_state : rng) : list (result dict) * rng :=
  let grid_size := grid_size sp in
  let n_iter := if grid_size <? n_iter then grid_size else n_iter in
  let '(indices, random_state) :=
    sample_without_replacement grid_size n_iter random_state in
  (map (ParameterGrid_getitem sp) indices, random_state).

(** What the index draw is documented to return for
    [0 <= n_samples <= n_population]: [n_samples] distinct indices below
    [n_population]. *)
Definition draws_ok : Prop :=
  forall n_population n_samples r,
    0 <= n_samples <= n_population ->
    let indices := fst (sample_without_replacement n_population n_samples r) in
    len indices = n_samples /\
    Forall (fun i => 0 <= i < n_population) indices /\
    NoDup indices.

(** [range(v)]: [v] has to be an [int]. *)
Definition range_of (v : value) : result (list Z) :=
  match v with
  | VInt n => Ok (range n)
  | VBool b => Ok (range (if b then 1 else 0))
  | _ => Raise TypeError
  end.

(** [v ** k] for [k >= 0].  Only [int] bases are given a result: the
    grid holds the multipliers [1] and [2], and a [float] power is not
    a value of this model. *)
Definition power (v : value) (k : Z) : result value :=
  match v with
  | VInt a => Ok (VInt (pow a k))
  | VBool b => Ok (VInt (pow (if b then 1 else 0) k))
  | _ => Raise TypeError
  end.

(** The body of the loop of [sample_cnn_hyperparameters]. *)
Definition with_dilation (params : dict) : result dict :=
  let* num_layers := getitem params "num_layers" in
  let* layers := range_of num_layers in
  let* dilation :=
    mapM (fun i =>
            let* m := getitem params "dilation_multiplier" in
            power m (i mod 8)) layers in
  Ok (dict_setitem "dilation" (VList dilation) params).

(** What the loop of the CNN sampler makes of a point of its grid. *)
Definition dilated (p : dict) : dict :=
  match with_dilation p with
  | Ok h => h
  | Raise _ => p
  end.

Definition cnn_space : space :=
  [ ("n_iter", N_ITER);
    ("batch_size", BATCH_SIZE);
    ("l2", L2);
    ("learning_rate", LEARNING_RATES);
    ("loss", LOSSES);
    ("embedding_dim", EMBEDDING_DIM);
    ("kernel_width", [VInt 3; VInt 5; VInt 7]);
    ("num_layers", map (fun i => VInt (1 + i)) (range 9));
    ("dilation_multiplier", [VInt 1; VInt 2]);
    ("nonlinearity", [VStr "tanh"; VStr "relu"]);
    ("residual", [VBool true; VBool false]) ].

Definition lstm_space : space :=
  [ ("n_iter", N_ITER);
    ("batch_size", BATCH_SIZE);
    ("l2", L2);
    ("learning_rate", LEARNING_RATES);
    ("loss", LOSSES);
    ("embedding_dim", EMBEDDING_DIM) ].

Definition pooling_space : space := lstm_space.

(** A generator is the list of what it yields, an entry that raises
    ending the iteration there, and the state the generator leaves the
    random number generator in. *)
Definition sample_cnn_hyperparameters (random_state : rng) (num : Z)
  : list (result dict) * rng :=
  let '(sampler, random_state) :=
    ParameterSampler cnn_space num random_state in
  (map (fun item => let* params := item in with_dilation params) sampler,
   random_state).

Definition sample_lstm_hyperparameters (random_state : rng) (num : Z)
  : list (result dict) * rng :=
  ParameterSampler lstm_space num random_state.

Definition sample_pooling_hyperparameters (random_state : rng) (num : Z)
  : list (result dict) * rng :=
  ParameterSampler pooling_space num random_state.

End ParameterSampler.

(** An index draw for the examples: the first [n_samples] indices, the
    state of the generator being a counter of the draws made. *)
Definition first_indices (n_population n_samples : Z) (r : nat)
  : list Z * nat :=
  (range n_samples, S r).

End Sampler.


(** ** The evaluators and the search driver *)

Module Driver.
Import Results Sampler.

(** The [representation] handed to the model: the network that
    [CNNNet] returned, or the name of a built-in one. *)
Inductive representation (network : Type) :=
| Net (net : network)
| Named (name : string).
Arguments Net {network} net.
Arguments Named {network} name.

(** The keyword arguments of [ImplicitSequenceModel(...)], the
    generator apart. *)
Record model_args (network : Type) := ModelArgs {
  loss : value;
  net : representation network;
  batch_size : value;
  learning_rate : value;
  l2 : value;
  n_iter : value;
  use_cuda : bool;
  tb_log_dir : option string
}.
Arguments ModelArgs {network}.
Arguments loss {network}.
Arguments net {network}.
Arguments batch_size {network}.
Arguments learning_rate {network}.
Arguments l2 {network}.
Arguments n_iter {network}.
Arguments use_cuda {network}.
Arguments tb_log_dir {network}.

(** What the file takes from outside.  The operating system: its
    verdict [open_error] on opening a name for appending ([None] where
    it accepts), taken as fixed while the program runs.  The random
    number generator, known by its state, and the index draw of
    [sklearn].  The data sets with their [num_items].  The training
    library, call by call: [CNNNet(...)], [ImplicitSequenceModel(...)],
    [model.fit] and [sequence_mrr_score]; each may raise, and the last
    three hold the generator and may draw from it.  [mean] is the
    [.mean()] of an array of scores. *)
Class Collaborators := {
  rng : Type;
  dataset : Type;
  network : Type;
  model : Type;
  scores : Type;
  CUDA : bool;
  open_error : string -> option exn;
  sample_without_replacement : Z -> Z -> rng -> list Z * rng;
  num_items : dataset -> value;
  CNNNet :
    value -> value -> value -> value -> value -> value -> value ->
    result network;
  ImplicitSequenceModel : model_args network -> rng -> result model * rng;
  fit : model -> dataset -> rng -> result model * rng;
  sequence_mrr_score : model -> dataset -> rng -> result scores * rng;
  mean : scores -> pyfloat
}.

Inductive model_family := Pooling | Cnn | Lstm.

(** What the run shows on its way: the three [print] calls, and every
    call of [eval_fnc] as it is entered. *)
Inductive event :=
| PrintBest (model_type : string) (best_result : option dict)
| PrintEvaluating (hyperparameters : dict)
| Evaluate (family : model_family) (hyperparameters : dict)
           (this_tb_log_dir : option string)
| PrintMRR (test_mrr val_mrr : pyfloat).

(** The events after the first [best] of [run]. *)
Definition best_events (model_type : string) (b : option dict) : list event :=
  match b with
  | Some _ => [PrintBest model_type b]
  | None => []
  end.

(** A trial that was carried through: the set, the telemetry directory
    and the two means; the line it leaves in the store and the events
    it leaves in the trace. *)
Definition trial : Type := dict * string * pyfloat * pyfloat.

Definition trial_line (x : trial) : dict :=
  let '(h, _, t, v) := x in Results.written h (VFloat t) (VFloat v).

Definition trial_events (family : model_family) (x : trial) : list event :=
  let '(h, dir, t, v) := x in
  [PrintEvaluating h; Evaluate family h (Some dir); PrintMRR t v].

(** The hyperparameters an evaluator reads, in the order it reads them:
    those [CNNNet(...)] is called with, and those
    [ImplicitSequenceModel(...)] is called with. *)
Definition network_reads : list string :=
  [ "embedding_dim"; "kernel_width"; "dilation"; "num_layers";
    "nonlinearity"; "residual" ].

Definition model_reads : list string :=
  [ "loss"; "batch_size"; "learning_rate"; "l2"; "n_iter" ].

Definition reads (family : model_family) : list string :=
  match family with
  | Cnn => network_reads ++ model_reads
  | Lstm | Pooling => model_reads
  end.

Section Run.
Context `{Collaborators}.

(** The state a run works on: the files, the module global
    [random_state] ([None] while the name is not bound, else the state
    of the generator it names) and the events so far. *)
Record world := World {
  files : gmap string (list dict);
  random_state : option rng;
  events : list event
}.

(** State and exceptions: an exception keeps the effects made so far. *)
Definition St (S A : Type) : Type := S -> result A * S.

Definition M (A : Type) : Type := St world A.

Definition ret {S A} (a : A) : St S A := fun s => (Ok a, s).

Definition bindM {S A B} (m : St S A) (k : A -> St S B) : St S B :=
  fun s =>
    match m s with
    | (Ok a, s') => k a s'
    | (Raise e, s') => (Raise e, s')
    end.

Definition lift {S A} (r : result A) : St S A := fun s => (r, s).

Definition emit (e : event) : M unit :=
  fun w => (Ok tt, World (files w) (random_state w) (events w ++ [e])).

Definition on_files {A} (f : fs -> result A) : M A :=
  fun w => (f (files w), w).

Definition set_files (f : fs -> fs) : M unit :=
  fun w => (Ok tt, World (f (files w)) (random_state w) (events w)).

(** Reading the global [random_state]: an unbound name raises
    [NameError]. *)
Definition get_random_state : M rng :=
  fun w =>
    match random_state w with
    | None => (Raise (NameError "random_state"), w)
    | Some r => (Ok r, w)
    end.

(** The generator named by [random_state] is an object that its users
    change in place: the state it is left in. *)
Definition set_random_state (r : rng) : M unit :=
  fun w => (Ok tt, World (files w) (Some r) (events w)).

(** A step that draws from the generator named by the global
    [random_state]; reading an unbound name raises [NameError]. *)
Definition with_random_state {A} (f : rng -> A * rng) : M A :=
  fun w =>
    match random_state w with
    | None => (Raise (NameError "random_state"), w)
    | Some r =>
        let '(a, r') := f r in
        (Ok a, World (files w) (Some r') (events w))
    end.

Local Notation "'let!' x ':=' m 'in' k" := (bindM m (fun x => k))
  (at level 10, x name, m at level 100, k at level 200).
Local Notation "m ';;' k" := (bindM m (fun _ => k))
  (at level 100, k at level 200, right associativity).

(** The evaluators are handed the generator as their parameter
    [random_state]; they run on its state. *)
Definition evaluate_cnn_model (hyperparameters : dict)
    (train test validation : dataset) (random_state : rng)
    (tb_log_dir : option string) : result (scores * scores) * rng :=
  let h := hyperparameters in
  (let! embedding_dim := lift (getitem h "embedding_dim") in
   let! kernel_width := lift (getitem h "kernel_width") in
   let! dilation := lift (getitem h "dilation") in
   let! num_layers := lift (getitem h "num_layers") in
   let! nonlinearity := lift (getitem h "nonlinearity") in
   let! residual := lift (getitem h "residual") in
   let! net := lift (CNNNet (num_items train) embedding_dim kernel_width
                       dilation num_layers nonlinearity residual) in
   let! loss := lift (getitem h "loss") in
   let! batch_size := lift (getitem h "batch_size") in
   let! learning_rate := lift (getitem h "learning_rate") in
   let! l2 := lift (getitem h "l2") in
   let! n_iter := lift (getitem h "n_iter") in
   let! model := ImplicitSequenceModel
                   (ModelArgs loss (Net net) batch_size learning_rate l2
                      n_iter CUDA tb_log_dir) in
   let! model := fit model train in
   let! test_mrr := sequence_mrr_score model test in
   let! val_mrr := sequence_mrr_score model validation in
   ret (test_mrr, val_mrr)) random_state.

(** [evaluate_lstm_model] and [evaluate_pooling_model] differ in the
    name of the representation only. *)
Definition evaluate_named_model (name : string)
    (hyperparameters : dict) (train test validation : dataset)
    (random_state : rng) (tb_log_dir : option string)
  : result (scores * scores) * rng :=
  let h := hyperparameters in
  (let! loss := lift (getitem h "loss") in
   let! batch_size := lift (getitem h "batch_size") in
   let! learning_rate := lift (getitem h "learning_rate") in
   let! l2 := lift (getitem h "l2") in
   let! n_iter := lift (getitem h "n_iter") in
   let! model := ImplicitSequenceModel
                   (ModelArgs loss (Named name) batch_size learning_rate l2
                      n_iter CUDA tb_log_dir) in
   let! model := fit model train in
   let! test_mrr := sequence_mrr_score model test in
   let! val_mrr := sequence_mrr_score model validation in
   ret (test_mrr, val_mrr)) random_state.

Definition evaluate_lstm_model := evaluate_named_model "lstm".
Definition evaluate_pooling_model := evaluate_named_model "pooling".

Definition eval_fnc (family : model_family) :=
  match family with
  | Pooling => evaluate_pooling_model
  | Cnn => evaluate_cnn_model
  | Lstm => evaluate_lstm_model
  end.

(** The calls each evaluator ends with, as one: the model is built
    from its arguments, fitted on [train], and scored on [test] and on
    [validation]. *)
Definition fit_and_score (args : model_args network)
    (train test validation : dataset) : St rng (scores * scores) :=
  let! model := ImplicitSequenceModel args in
  let! model := fit model train in
  let! test_mrr := sequence_mrr_score model test in
  let! val_mrr := sequence_mrr_score model validation in
  ret (test_mrr, val_mrr).

(** An evaluator from the reading of [loss] on: the whole of the LSTM
    and of the pooling evaluator, and the CNN evaluator once the network
    is built. *)
Definition read_model (h : dict) (net : representation network)
    (train test validation : dataset) (tb_log_dir : option string)
  : St rng (scores * scores) :=
  let! loss := lift (getitem h "loss") in
  let! batch_size := lift (getitem h "batch_size") in
  let! learning_rate := lift (getitem h "learning_rate") in
  let! l2 := lift (getitem h "l2") in
  let! n_iter := lift (getitem h "n_iter") in
  fit_and_score
    (ModelArgs loss net batch_size learning_rate l2 n_iter CUDA tb_log_dir)
    train test validation.

Definition sample_fnc (family : model_family) (r : rng) (num : Z)
  : list (result dict) * rng :=
  match family with
  | Pooling => sample_pooling_hyperparameters sample_without_replacement r num
  | Cnn => sample_cnn_hyperparameters sample_without_replacement r num
  | Lstm => sample_lstm_hyperparameters sample_without_replacement r num
  end.

(** The [if]/[elif] chain on [model_type]. *)
Definition family_of (model_type : string) : result model_family :=
  if String.eqb model_type "pooling" then Ok Pooling
  else if String.eqb model_type "cnn" then Ok Cnn
  else if String.eqb model_type "lstm" then Ok Lstm
  else Raise (ValueError "Unknown model type").

(** One turn of the [for] loop, on what the generator yielded.  The
    call of [eval_fnc] looks the global [random_state] up for its fifth
    argument, and the evaluator leaves the generator in a new state. *)
Definition body (results : Results.t) (family : model_family)
    (train test validation : dataset) (model_type : string)
    (tb_log_dir : option string) (cnt : Z) (hyperparameters : dict)
  : M unit :=
  let! present := on_files (__contains__ results hyperparameters) in
  if (present : bool) then ret tt
  else
    emit (PrintEvaluating hyperparameters) ;;
    let! this_tb_log_dir :=
      lift (path_join tb_log_dir [model_type; "run_" +:+ format_3d cnt]) in
    let! r := get_random_state in
    emit (Evaluate family hyperparameters (Some this_tb_log_dir)) ;;
    let out := eval_fnc family hyperparameters train test validation r
                 (Some this_tb_log_dir) in
    set_random_state (snd out) ;;
    let! mrr := lift (fst out) in
    let test_mrr := mean (fst mrr) in
    let val_mrr := mean (snd mrr) in
    emit (PrintMRR test_mrr val_mrr) ;;
    set_files (save results hyperparameters
                 (VFloat test_mrr) (VFloat val_mrr)).

(** [for cnt, hyperparameters in enumerate(...)], from [cnt] on. *)
Fixpoint loop (results : Results.t) (family : model_family)
    (train test validation : dataset) (model_type : string)
    (tb_log_dir : option string) (cnt : Z) (items : list (result dict))
  : M unit :=
  match items with
  | [] => ret tt
  | item :: rest =>
      let! hyperparameters := lift item in
      body results family train test validation model_type tb_log_dir
        cnt hyperparameters ;;
      loop results family train test validation model_type tb_log_dir
        (cnt + 1) rest
  end.

(** [run]; the first positional parameter after the data sets is
    spelled [ranomd_state] in the source. *)
Definition run {R : Type} (train test validation : dataset)
    (ranomd_state : R) (model_type : string)
    (tb_log_dir : option string) : M Results.t :=
  let! results :=
    (fun w => match __init__ open_error (model_type +:+ "_results.txt")
                      (files w) with
              | Ok (r, f) => (Ok r, World f (random_state w) (events w))
              | Raise e => (Raise e, w)
              end) in
  let! best_result := on_files (best results) in
  let! family := lift (family_of model_type) in
  (match best_result with
   | Some _ =>
       let! b := on_files (best results) in
       emit (PrintBest model_type b)
   | None => ret tt
   end) ;;
  let! items := with_random_state (fun r => sample_fnc family r NUM_SAMPLES) in
  loop results family train test validation model_type tb_log_dir 0 items ;;
  ret results.

End Run.

End Driver.

(** ** Examples and the wording of the specification *)

(** Collaborators for the examples: every name can be opened, the
    generator counts its draws, the index draw returns the first
    indices, fitting draws once, and every model scores 0.5 on every
    data set. *)
Definition demo : Driver.Collaborators := {|
  Driver.rng := nat;
  Driver.dataset := unit;
  Driver.network := unit;
  Driver.model := unit;
  Driver.scores := pyfloat;
  Driver.CUDA := false;
  Driver.open_error := fun _ => None;
  Driver.sample_without_replacement := Sampler.first_indices;
  Driver.num_items := fun _ => VInt 3706;
  Driver.CNNNet := fun _ _ _ _ _ _ _ => Ok tt;
  Driver.ImplicitSequenceModel := fun _ r => (Ok tt, r);
  Driver.fit := fun _ _ r => (Ok tt, S r);
  Driver.sequence_mrr_score := fun _ _ r =>
    (Ok (PyFloat 5 (-1)), r);
  Driver.mean := fun s => s
|}.

(** Collaborators whose training always fails. *)
Definition diverging : Driver.Collaborators := {|
  Driver.rng := nat;
  Driver.dataset := unit;
  Driver.network := unit;
  Driver.model := unit;
  Driver.scores := pyfloat;
  Driver.CUDA := false;
  Driver.open_error := fun _ => None;
  Driver.sample_without_replacement := Sampler.first_indices;
  Driver.num_items := fun _ => VInt 3706;
  Driver.CNNNet := fun _ _ _ _ _ _ _ => Ok tt;
  Driver.ImplicitSequenceModel := fun _ r => (Ok tt, r);
  Driver.fit := fun _ _ r =>
    (Raise (ValueError "Degenerate epoch loss"), S r);
  Driver.sequence_mrr_score := fun _ _ r =>
    (Ok (PyFloat 5 (-1)), r);
  Driver.mean := fun s => s
|}.

(** An index draw that returns the same index three times: the set is
    evaluated once. *)
Definition repeating : Driver.Collaborators := {|
  Driver.rng := nat;
  Driver.dataset := unit;
  Driver.network := unit;
  Driver.model := unit;
  Driver.scores := pyfloat;
  Driver.CUDA := false;
  Driver.open_error := fun _ => None;
  Driver.sample_without_replacement := fun _ _ r => ([5; 5; 5]%Z, S r);
  Driver.num_items := fun _ => VInt 3706;
  Driver.CNNNet := fun _ _ _ _ _ _ _ => Ok tt;
  Driver.ImplicitSequenceModel := fun _ r => (Ok tt, r);
  Driver.fit := fun _ _ r => (Ok tt, S r);
  Driver.sequence_mrr_score := fun _ _ r =>
    (Ok (PyFloat 5 (-1)), r);
  Driver.mean := fun s => s
|}.

(** A [CNNNet] that wants an [int] as its kernel width. *)
Definition strict : Driver.Collaborators := {|
  Driver.rng := nat;
  Driver.dataset := unit;
  Driver.network := unit;
  Driver.model := unit;
  Driver.scores := pyfloat;
  Driver.CUDA := false;
  Driver.open_error := fun _ => None;
  Driver.sample_without_replacement := Sampler.first_indices;
  Driver.num_items := fun _ => VInt 3706;
  Driver.CNNNet := fun _ _ kernel_width _ _ _ _ =>
    match kernel_width with
    | VInt _ => Ok tt
    | _ => Raise TypeError
    end;
  Driver.ImplicitSequenceModel := fun _ r => (Ok tt, r);
  Driver.fit := fun _ _ r => (Ok tt, S r);
  Driver.sequence_mrr_score := fun _ _ r =>
    (Ok (PyFloat 5 (-1)), r);
  Driver.mean := fun s => s
|}.

(** The directory [a] does not exist: no file can be opened in it. *)
Definition no_directory : Driver.Collaborators := {|
  Driver.rng := nat;
  Driver.dataset := unit;
  Driver.network := unit;
  Driver.model := unit;
  Driver.scores := pyfloat;
  Driver.CUDA := false;
  Driver.open_error := fun name =>
    if String.prefix "a/" name then Some FileNotFoundError else None;
  Driver.sample_without_replacement := Sampler.first_indices;
  Driver.num_items := fun _ => VInt 3706;
  Driver.CNNNet := fun _ _ _ _ _ _ _ => Ok tt;
  Driver.ImplicitSequenceModel := fun _ r => (Ok tt, r);
  Driver.fit := fun _ _ r => (Ok tt, S r);
  Driver.sequence_mrr_score := fun _ _ r =>
    (Ok (PyFloat 5 (-1)), r);
  Driver.mean := fun s => s
|}.

(** A first start: no store file yet, the generator freshly seeded. *)
Definition fresh : Driver.world (H := demo) :=
  Driver.World (H := demo) ∅ (Some 0%nat) [].

(** Three lines with the scores 0.3, 0.9 and 0.5. *)
Definition three_lines : list dict :=
  [ Results.written [("n_iter", VInt 5)] (VFloat (PyFloat 3 (-1)))
      (VFloat (PyFloat 2 (-1)));
    Results.written [("n_iter", VInt 6)] (VFloat (PyFloat 9 (-1)))
      (VFloat (PyFloat 8 (-1)));
    Results.written [("n_iter", VInt 7)] (VFloat (PyFloat 5 (-1)))
      (VFloat (PyFloat 4 (-1))) ].

(** The store round trip as the specification words it, for every
    store: after [save(h, t, v)] the set is a member and its lookup shows
    [t] and [v], no [hash], and the entries of [h]. *)
Definition store_round_trip_as_stated : Prop :=
  forall (self : Results.t) (h : dict) (t v : value) (files : Results.fs),
    wf_dict h ->
    let files' := Results.save self h t v files in
    Results.__contains__ self h files' = Ok true /\
    exists r, Results.__getitem__ self h files' = Ok r /\
              dict_get "test_mrr" r = Some t /\
              dict_get "validation_mrr" r = Some v /\
              dict_get "hash" r = None /\
              forall k x, dict_get k h = Some x -> dict_get k r = Some x.



(** The length of a sample as the specification words it: whatever the
    count, the sampler yields exactly that many sets (here for the LSTM
    space, and for an index draw that keeps its contract). *)
Definition sampler_length_as_stated : Prop :=
  forall (rng : Type) (swr : Z -> Z -> rng -> list Z * rng),
    Sampler.draws_ok swr ->
    forall (r : rng) (num : Z),
      (0 <= num)%Z ->
      Sampler.len (fst (Sampler.sample_lstm_hyperparameters swr r num)) = num.

(** * Properties *)

(** ** Sorting *)

Section SortPairs.
Context {A K : Type} (ltb : K -> K -> bool).

Lemma insert_sorted_Permutation x (l : list (K * A)) :
  insert_sorted ltb x l ≡ₚ x :: l.
Proof.
  induction l as [|y l IH]; simpl; [done|].
  destruct (ltb (fst y) (fst x)); [|done].
  rewrite IH. apply Permutation_swap.
Qed.

Lemma sort_pairs_Permutation (l : list (K * A)) : sort_pairs ltb l ≡ₚ l.
Proof.
  induction l as [|x l IH]; simpl; [done|].
  rewrite insert_sorted_Permutation. by rewrite IH.
Qed.

Lemma sort_pairs_length (l : list (K * A)) :
  length (sort_pairs ltb l) = length l.
Proof. by rewrite sort_pairs_Permutation. Qed.

Hypothesis ltb_asym : forall a b, ltb a b = true -> ltb b a = false.

Lemma insert_sorted_Sorted x (l : list (K * A)) :
  Sorted (key_le ltb) l -> Sorted (key_le ltb) (insert_sorted ltb x l).
Proof.
  induction 1 as [|y l Hl IH Hy]; simpl.
  - repeat constructor.
  - destruct (ltb (fst y) (fst x)) eqn:E.
    + constructor; [done|].
      destruct Hy as [|z l Hz]; simpl.
      * constructor. by apply ltb_asym.
      * destruct (ltb (fst z) (fst x)); constructor;
          [done | by apply ltb_asym].
    + constructor; [by constructor|]. by constructor.
Qed.

Lemma sort_pairs_Sorted (l : list (K * A)) : Sorted (key_le ltb) (sort_pairs ltb l).
Proof.
  induction l; simpl; [constructor | by apply insert_sorted_Sorted].
Qed.

Hypothesis ltb_negtrans :
  forall a b c, ltb a b = false -> ltb b c = false -> ltb a c = false.


End SortPairs.

Lemma String_ltb_asym (a b : string) :
  String.ltb a b = true -> String.ltb b a = false.
Proof.
  unfold String.ltb. rewrite (String.compare_antisym b a).
  by destruct (String.compare a b).
Qed.

Lemma String_ltb_leb (a b : string) :
  String.ltb a b = false <-> String.leb b a = true.
Proof.
  unfold String.ltb, String.leb. rewrite (String.compare_antisym b a).
  by destruct (String.compare a b).
Qed.

Lemma String_ltb_negtrans (a b c : string) :
  String.ltb a b = false -> String.ltb b c = false -> String.ltb a c = false.
Proof.
  rewrite !String_ltb_leb. intros Hba Hcb.
  apply Is_true_true. change (String.le c a).
  etrans; apply Is_true_true; eassumption.
Qed.

(** ** Dictionaries *)

Section DictFacts.
Implicit Types (d h : dict) (k : string) (v : value).

Lemma dict_get_cons k k' v d :
  dict_get k ((k', v) :: d) = if String.eqb k k' then Some v else dict_get k d.
Proof. done. Qed.

Lemma dict_get_elem k v d : dict_get k d = Some v -> (k, v) ∈ d.
Proof.
  induction d as [|[k' v'] d IH]; simpl; [done|].
  destruct (String.eqb_spec k k') as [->|]; intros; simplify_eq.
  - left.
  - right. auto.
Qed.

Lemma dict_get_None k d : dict_get k d = None <-> k ∉ keys d.
Proof.
  induction d as [|[k' v'] d IH]; simpl.
  - split; [intros _ ?%elem_of_nil|]; done.
  - rewrite not_elem_of_cons.
    destruct (String.eqb_spec k k') as [->|]; split; try done.
    + by intros [? _].
    + intros. split; [done|]. by apply IH.
    + intros [_ ?]. by apply IH.
Qed.

Lemma dict_get_is_Some k d : is_Some (dict_get k d) <-> k ∈ keys d.
Proof.
  destruct (dict_get k d) eqn:E.
  - split; [intros _|by eauto].
    destruct (decide (k ∈ keys d)) as [|Hn]; [done|].
    apply dict_get_None in Hn. congruence.
  - split; [by intros [? ?]|]. intros Hin.
    by apply dict_get_None in E.
Qed.

Lemma elem_dict_get k v d : wf_dict d -> (k, v) ∈ d -> dict_get k d = Some v.
Proof.
  unfold wf_dict. induction d as [|[k' v'] d IH]; simpl.
  - by intros _ ?%elem_of_nil.
  - intros [Hk Hd]%NoDup_cons [?|Hin]%elem_of_cons; simplify_eq.
    + by rewrite String.eqb_refl.
    + destruct (String.eqb_spec k k') as [->|]; [|by auto].
      destruct Hk. by apply (list_elem_of_fmap_2 fst _ (k', v)).
Qed.

(** Two dictionaries with the same entries hold them in some order. *)
Lemma dict_ext_Permutation d h :
  wf_dict d -> wf_dict h ->
  (forall k, dict_get k d = dict_get k h) -> d ≡ₚ h.
Proof.
  intros Hd Hh Heq. apply NoDup_Permutation.
  - by eapply NoDup_fmap_1.
  - by eapply NoDup_fmap_1.
  - intros [k v]. split; intros Hin.
    + apply dict_get_elem. rewrite <-Heq. by apply elem_dict_get.
    + apply dict_get_elem. rewrite Heq. by apply elem_dict_get.
Qed.

Lemma dict_get_setitem k k' v d :
  dict_get k (dict_setitem k' v d)
  = if String.eqb k k' then Some v else dict_get k d.
Proof.
  induction d as [|[k2 v2] d IH]; simpl.
  - done.
  - destruct (String.eqb_spec k' k2) as [->|Hne]; simpl.
    + by destruct (String.eqb k k2).
    + rewrite IH. destruct (String.eqb_spec k k2) as [->|]; [|done].
      destruct (String.eqb_spec k2 k'); [congruence|done].
Qed.

Lemma keys_setitem_fresh k v d :
  k ∉ keys d -> dict_setitem k v d = d ++ [(k, v)].
Proof.
  induction d as [|[k2 v2] d IH]; simpl; [done|].
  intros [Hne Hd]%not_elem_of_cons.
  destruct (String.eqb_spec k k2); [done|]. by rewrite IH.
Qed.

Lemma keys_setitem k v d :
  keys (dict_setitem k v d) = if decide (k ∈ keys d) then keys d else keys d ++ [k].
Proof.
  induction d as [|[k2 v2] d IH]; simpl.
  - done.
  - destruct (String.eqb_spec k k2) as [->|Hne]; simpl.
    + rewrite decide_True; [done|left].
    + rewrite IH. case_decide as Hin.
      * rewrite decide_True; [done|by right].
      * rewrite decide_False; [done|].
        by intros [?|?]%elem_of_cons.
Qed.

(** Updating with a dictionary whose keys are all new appends it. *)
Lemma dict_update_disjoint d h :
  wf_dict h -> (forall k, k ∈ keys h -> k ∉ keys d) ->
  dict_update d h = d ++ h.
Proof.
  unfold dict_update, wf_dict. revert d.
  induction h as [|[k v] h IH]; intros d Hwf Hdisj; simpl.
  - by rewrite app_nil_r.
  - apply NoDup_cons in Hwf as [Hk Hwf].
    rewrite keys_setitem_fresh; [|apply Hdisj; left].
    rewrite IH; [by rewrite <-app_assoc|done|].
    intros k' Hk'. unfold keys. rewrite fmap_app, elem_of_app.
    intros [?|Hin]; [by eapply Hdisj; [right|]|].
    simpl in Hin. apply list_elem_of_singleton in Hin. by subst.
Qed.

(** After an update, a key of the argument holds the argument's value. *)
Lemma dict_get_update k d h :
  wf_dict h ->
  dict_get k (dict_update d h)
  = match dict_get k h with Some v => Some v | None => dict_get k d end.
Proof.
  unfold dict_update, wf_dict. revert d.
  induction h as [|[k' v'] h IH]; intros d Hwf; simpl; [done|].
  apply NoDup_cons in Hwf as [Hk Hwf]. rewrite IH by done.
  rewrite dict_get_setitem.
  destruct (String.eqb_spec k k') as [->|]; [|done].
  apply dict_get_None in Hk. simpl in Hk. by rewrite Hk.
Qed.

Lemma dict_get_remove_ne k k' d :
  k <> k' -> dict_get k (dict_remove k' d) = dict_get k d.
Proof.
  intros Hne. induction d as [|[k2 v2] d IH]; simpl; [done|].
  destruct (String.eqb_spec k' k2) as [->|]; simpl.
  - by destruct (String.eqb_spec k k2).
  - by rewrite IH.
Qed.

Lemma dict_remove_fresh k d : k ∉ keys d -> dict_remove k d = d.
Proof.
  induction d as [|[k2 v2] d IH]; simpl; [done|].
  intros [Hne Hd]%not_elem_of_cons.
  destruct (String.eqb_spec k k2); [done|]. by rewrite IH.
Qed.

End DictFacts.

(** ** The fingerprint *)

Section Fingerprint.
Import Results.

#[local] Instance key_le_string_trans :
  Transitive (key_le (A := value) String.ltb).
Proof.
  intros a b c Hab Hbc. unfold key_le in *.
  by eapply String_ltb_negtrans.
Qed.

(** Sorting by key forgets the order of insertion. *)
Lemma sort_items_ext (x y : dict) :
  wf_dict x -> wf_dict y ->
  (forall k, dict_get k x = dict_get k y) ->
  Json.sort_items x = Json.sort_items y.
Proof.
  intros Hx Hy Heq. unfold Json.sort_items.
  apply (Sorted_unique_strong (key_le String.ltb)).
  - intros [k1 v1] [k2 v2] H1 H2 H12 H21.
    unfold key_le in *. simpl in *.
    apply String_ltb_leb in H12, H21.
    assert (k1 = k2) as -> by by apply String.leb_antisym.
    rewrite sort_pairs_Permutation in H1, H2.
    apply (elem_dict_get _ _ _ Hx) in H1.
    apply (elem_dict_get _ _ _ Hy) in H2.
    rewrite Heq in H1. congruence.
  - apply sort_pairs_Sorted, String_ltb_asym.
  - apply sort_pairs_Sorted, String_ltb_asym.
  - rewrite !sort_pairs_Permutation. by apply dict_ext_Permutation.
Qed.

Lemma le_bytes_length n x : length (MD5.le_bytes n x) = n.
Proof. revert x. induction n; intros; simpl; [done|]. by rewrite IHn. Qed.

Lemma le_bytes_range n x : Forall (fun b => 0 <= b < 256)%Z (MD5.le_bytes n x).
Proof.
  revert x. induction n; intros; simpl; constructor; [|done].
  apply Z.mod_pos_bound. lia.
Qed.

Lemma hex_char_is_hex d : (0 <= d < 16)%Z -> MD5.is_hex (MD5.hex_char d) = true.
Proof.
  intros Hd.
  assert (d ∈ map Z.of_nat (seq 0 16)) as Hin.
  { apply list_elem_of_fmap. exists (Z.to_nat d). split; [lia|].
    apply elem_of_seq. lia. }
  revert Hin. generalize d. apply Forall_forall.
  by apply (bool_decide_unpack _).
Qed.

Lemma digest_length data : length (MD5.digest data) = 16%nat.
Proof.
  unfold MD5.digest.
  destruct (MD5.blocks _ _ _) as [[[a b] c] d].
  by rewrite !length_app, !le_bytes_length.
Qed.

Lemma digest_range data : Forall (fun b => 0 <= b < 256)%Z (MD5.digest data).
Proof.
  unfold MD5.digest.
  destruct (MD5.blocks _ _ _) as [[[a b] c] d].
  rewrite !Forall_app. split_and!; apply le_bytes_range.
Qed.

Lemma list_ascii_of_string_of_list l :
  list_ascii_of_string (string_of_list_ascii l) = l.
Proof. apply list_ascii_of_string_of_list_ascii. Qed.

Lemma string_of_list_length l :
  String.length (string_of_list_ascii l) = length l.
Proof. induction l; simpl; [done|]. by rewrite IHl. Qed.

(** The digest is always 32 lower-case hexadecimal digits. *)
Lemma hexdigest_shape data :
  String.length (MD5.hexdigest data) = 32%nat /\
  forallb MD5.is_hex (list_ascii_of_string (MD5.hexdigest data)) = true.
Proof.
  unfold MD5.hexdigest.
  pose proof (digest_length data) as Hlen.
  pose proof (digest_range data) as Hr.
  rewrite list_ascii_of_string_of_list.
  split.
  - rewrite string_of_list_length.
    replace 32%nat with (2 * 16)%nat by done. rewrite <-Hlen.
    generalize (MD5.digest data).
    induction l as [|b l IH]; simpl; [done|]. rewrite IH. lia.
  - clear Hlen. induction Hr as [|b l Hb _ IH]; simpl; [done|].
    rewrite IH, !hex_char_is_hex; [done|..].
    + apply Z.mod_pos_bound. lia.
    + split; [apply Z.div_pos|apply Z.div_lt_upper_bound]; lia.
Qed.

End Fingerprint.

(** C2.  The fingerprint [Results._hash] is a function of the mapping
    alone: two hyperparameter dictionaries that hold the same value under
    every key, whatever the order their keys were inserted in, get the
    same digest, and that digest is always 32 hexadecimal digits.  In
    particular [{"a":1,"b":2}] and [{"b":2,"a":1}] get the same digest,
    and [{"a":1}] and [{"a":2}] get different ones. *)
Theorem fingerprint_order_independent :
  (forall x y : dict,
      wf_dict x -> wf_dict y ->
      (forall k, dict_get k x = dict_get k y) ->
      Results._hash x = Results._hash y) /\
  (forall x : dict,
      String.length (Results._hash x) = 32%nat /\
      forallb MD5.is_hex (list_ascii_of_string (Results._hash x)) = true) /\
  Results._hash [("a", VInt 1); ("b", VInt 2)]
  = Results._hash [("b", VInt 2); ("a", VInt 1)] /\
  Results._hash [("a", VInt 1)] <> Results._hash [("a", VInt 2)].
Proof.
  split_and!.
  - intros x y Hx Hy Heq. unfold Results._hash, Json.dumps_sorted.
    by rewrite (sort_items_ext x y).
  - intros x. apply hexdigest_shape.
  - by vm_compute.
  - by vm_compute.
Qed.

Example fingerprint_a1 :
  Results._hash [("a", VInt 1)] = "42b7b4f2921788ea14dac5566e6f06d0".
Proof. by vm_compute. Qed.

Lemma fingerprint_order_independent_witness :
  Results._hash [("lr", VFloat (PyFloat 1 (-1))); ("loss", VStr "bpr")]
  = Results._hash [("loss", VStr "bpr"); ("lr", VFloat (PyFloat 1 (-1)))].
Proof.
  apply (proj1 fingerprint_order_independent).
  - unfold wf_dict. apply (bool_decide_unpack _). by vm_compute.
  - unfold wf_dict. apply (bool_decide_unpack _). by vm_compute.
  - intros k. simpl.
    destruct (String.eqb_spec k "lr") as [->|]; [done|].
    by destruct (String.eqb k "loss").
Defined.

(** ** The result store *)

Section Store.
Import Results.
Implicit Types (self : Results.t) (h d : dict) (files : fs).





Lemma save_lines self h t v files :
  save self h t v files !! _filename self
  = Some (default [] (files !! _filename self) ++ [written h t v]).
Proof. unfold save, write_line. by rewrite lookup_insert_eq. Qed.

Lemma save_other self h t v files name :
  name <> _filename self -> save self h t v files !! name = files !! name.
Proof. intros. unfold save, write_line. by rewrite lookup_insert_ne. Qed.

Lemma written_has_hash h t v : wf_dict h -> has_hash (written h t v).
Proof.
  intros Hh. unfold has_hash, written. rewrite dict_get_update by done.
  destruct (dict_get "hash" h); by eauto.
Qed.

Lemma scan_app_miss params_hash lines lines' :
  Forall (fun d => exists x, dict_get "hash" d = Some x /\
                             eq_str x params_hash = false) lines ->
  scan params_hash (lines ++ lines') = scan params_hash lines'.
Proof.
  induction 1 as [|d l (x & Hx & Hne) _ IH]; simpl; [done|].
  unfold getitem. rewrite Hx. simpl. by rewrite Hne.
Qed.

Lemma scan_app_hit params_hash lines lines' r :
  scan params_hash lines = Ok r ->
  scan params_hash (lines ++ lines') = Ok r.
Proof.
  induction lines as [|d l IH]; simpl; [done|].
  destruct (getitem d "hash") as [x|]; simpl; [|done].
  destruct (eq_str x params_hash); auto.
Qed.

(** On well-formed lines a miss means that no line has the hash. *)
Lemma scan_miss params_hash lines :
  wf_store lines ->
  (forall r, scan params_hash lines <> Ok r) ->
  Forall (fun d => exists x, dict_get "hash" d = Some x /\
                             eq_str x params_hash = false) lines.
Proof.
  induction 1 as [|d l [x Hx] _ IH]; simpl; intros Hmiss; [done|].
  unfold getitem, delitem in Hmiss. rewrite Hx in Hmiss. simpl in Hmiss.
  destruct (eq_str x params_hash) eqn:E.
  - by destruct (Hmiss (dict_remove "hash" d)).
  - constructor; [by eauto|]. by apply IH.
Qed.

Lemma contains_false_scan self h files lines :
  files !! _filename self = Some lines ->
  __contains__ self h files = Ok false ->
  forall r, scan (_hash h) lines <> Ok r.
Proof.
  unfold __contains__, __getitem__, read_lines. intros -> Hc r Hr.
  simpl in Hc. rewrite Hr in Hc. done.
Qed.

Lemma touch_lookup name (fls : fs) :
  touch name fls !! name = Some (default [] (fls !! name)).
Proof.
  unfold touch. destruct (fls !! name) eqn:E; [by rewrite E|].
  by rewrite lookup_insert_eq.
Qed.

Lemma touch_present name (fls : fs) lines :
  fls !! name = Some lines -> touch name fls = fls.
Proof. intros Hf. unfold touch. by rewrite Hf. Qed.

Lemma touch_other name name' (fls : fs) :
  name' <> name -> touch name fls !! name' = fls !! name'.
Proof.
  intros Hne. unfold touch.
  destruct (fls !! name); [done|]. by rewrite lookup_insert_ne.
Qed.

End Store.

Section SaveLookup.
Import Results.
Implicit Types (self : Results.t) (h d : dict) (files : fs).

Lemma written_hash h t v :
  wf_dict h -> dict_get "hash" h = None ->
  dict_get "hash" (written h t v) = Some (VStr (_hash h)).
Proof. intros Hwf Hh. unfold written. by rewrite dict_get_update, Hh. Qed.

Lemma scan_written h t v :
  wf_dict h -> dict_get "hash" h = None ->
  scan (_hash h) [written h t v] = Ok (dict_remove "hash" (written h t v)).
Proof.
  intros Hwf Hh. simpl. unfold getitem, delitem.
  rewrite written_hash by done. simpl. by rewrite String.eqb_refl.
Qed.

(** A lookup that found a line before [save] finds the same line after. *)
Lemma getitem_save_present self h h' t v files r :
  __getitem__ self h files = Ok r ->
  __getitem__ self h (save self h' t v files) = Ok r.
Proof.
  unfold __getitem__, read_lines. rewrite save_lines.
  destruct (files !! _filename self) as [lines|]; simpl; [|done].
  apply scan_app_hit.
Qed.

(** After [save], a set that was not in the store is found in the line
    just written. *)
Lemma getitem_save_fresh self h t v files lines :
  files !! _filename self = Some lines -> wf_store lines ->
  wf_dict h -> dict_get "hash" h = None ->
  __contains__ self h files = Ok false ->
  __getitem__ self h (save self h t v files)
  = Ok (dict_remove "hash" (written h t v)).
Proof.
  intros Hf Hwf Hh Hnh Hc.
  unfold __getitem__, read_lines. rewrite save_lines, Hf. simpl.
  rewrite scan_app_miss; [by apply scan_written|].
  apply scan_miss; [done|]. by eapply contains_false_scan.
Qed.

Lemma contains_save self h t v files lines :
  files !! _filename self = Some lines -> wf_store lines ->
  wf_dict h -> dict_get "hash" h = None ->
  __contains__ self h (save self h t v files) = Ok true.
Proof.
  intros Hf Hwf Hh Hnh. unfold __contains__.
  destruct (__getitem__ self h files) as [r|e] eqn:E.
  - by erewrite getitem_save_present.
  - erewrite getitem_save_fresh; [done..|].
    unfold __contains__. rewrite E.
    unfold __getitem__, read_lines in E. rewrite Hf in E. simpl in E.
    clear Hf. induction Hwf as [|d l [x Hx] _ IH]; simpl in E; [by simplify_eq|].
    unfold getitem, delitem in E. rewrite Hx in E. simpl in E.
    destruct (eq_str x (_hash h)); [done|auto].
Qed.

Lemma contains_save_other self h h' t v files :
  __contains__ self h files = Ok true ->
  __contains__ self h (save self h' t v files) = Ok true.
Proof.
  unfold __contains__. intros Hc.
  destruct (__getitem__ self h files) as [r|[]] eqn:E; simplify_eq.
  by erewrite getitem_save_present.
Qed.

Lemma wf_store_save self h t v files lines :
  files !! _filename self = Some lines -> wf_store lines -> wf_dict h ->
  exists lines', save self h t v files !! _filename self = Some lines' /\
                 wf_store lines'.
Proof.
  intros Hf Hwf Hh. eexists. rewrite save_lines, Hf. split; [done|].
  apply Forall_app. split; [done|]. constructor; [|done].
  by apply written_has_hash.
Qed.

Lemma written_disjoint h t v :
  wf_dict h ->
  (forall k, k ∈ ["test_mrr"; "validation_mrr"; "hash"] -> dict_get k h = None) ->
  dict_remove "hash" (written h t v)
  = ("test_mrr", t) :: ("validation_mrr", v) :: h.
Proof.
  intros Hwf Hres. unfold written.
  rewrite dict_update_disjoint; [|done|].
  - done.
  - intros k Hk Hin. apply dict_get_is_Some in Hk as [x Hx].
    rewrite Hres in Hx; [done|]. set_solver.
Qed.

End SaveLookup.


(** C3, counterexample.  With [{"lr": 0.1}] already saved under the
    scores 0.1 and 0.2, saving it again under 0.5 and 0.4 leaves the
    lookup at the first line: [test_mrr] is still 0.1. *)
Lemma store_round_trip_counterexample : ~ store_round_trip_as_stated.
Proof.
  intros Hclaim.
  set (self := Results.Make "lstm_results.txt").
  set (h := [("lr", VFloat (PyFloat 1 (-1)))]).
  set (files := Results.save self h (VFloat (PyFloat 1 (-1)))
                  (VFloat (PyFloat 2 (-1))) ∅).
  destruct (Hclaim self h (VFloat (PyFloat 5 (-1))) (VFloat (PyFloat 4 (-1)))
              files) as (_ & r & Hr & Ht & _).
  { unfold wf_dict. apply (bool_decide_unpack _). by vm_compute. }
  vm_compute in Hr. injection Hr as <-. vm_compute in Ht. discriminate Ht.
Qed.

(** C3, amended.  On a store whose lines all carry a [hash], and for a
    hyperparameter set [h] that uses none of the keys [test_mrr],
    [validation_mrr] and [hash]: after [save(h, t, v)] the set is a member;
    a lookup of [h] returns the first line with its fingerprint, so a line
    found before the save is still the one returned, and when [h] was not
    in the store the lookup returns exactly [test_mrr = t],
    [validation_mrr = v] and the entries of [h], without the [hash]. *)
Theorem save_then_lookup
    (self : Results.t) (h : dict) (t v : value) (files : Results.fs)
    (lines : list dict) :
  files !! Results._filename self = Some lines ->
  Results.wf_store lines ->
  wf_dict h ->
  (forall k, k ∈ ["test_mrr"; "validation_mrr"; "hash"] ->
             dict_get k h = None) ->
  let files' := Results.save self h t v files in
  Results.__contains__ self h files' = Ok true /\
  (forall r, Results.__getitem__ self h files = Ok r ->
             Results.__getitem__ self h files' = Ok r) /\
  (Results.__contains__ self h files = Ok false ->
   Results.__getitem__ self h files'
   = Ok (("test_mrr", t) :: ("validation_mrr", v) :: h)).
Proof.
  intros Hf Hwf Hh Hres files'. subst files'.
  assert (dict_get "hash" h = None) as Hnh by (apply Hres; set_solver).
  split_and!.
  - by eapply contains_save.
  - intros r. apply getitem_save_present.
  - intros Hc. erewrite getitem_save_fresh by done.
    by rewrite written_disjoint.
Qed.

Lemma save_then_lookup_witness :
  let self := Results.Make "lstm_results.txt" in
  let h := [("lr", VFloat (PyFloat 1 (-1)))] in
  let files' := Results.save self h (VFloat (PyFloat 5 (-1)))
                  (VFloat (PyFloat 4 (-1))) {["lstm_results.txt" := []]} in
  Results.__contains__ self h files' = Ok true /\
  Results.__getitem__ self h files'
  = Ok [("test_mrr", VFloat (PyFloat 5 (-1)));
        ("validation_mrr", VFloat (PyFloat 4 (-1)));
        ("lr", VFloat (PyFloat 1 (-1)))].
Proof.
  intros self h files'.
  destruct (save_then_lookup self h (VFloat (PyFloat 5 (-1)))
              (VFloat (PyFloat 4 (-1))) {["lstm_results.txt" := []]} [])
    as (Hc & _ & Hg).
  - done.
  - constructor.
  - unfold wf_dict. apply (bool_decide_unpack _). by vm_compute.
  - intros k Hk.
    repeat (apply elem_of_cons in Hk as [->|Hk]; [by vm_compute|]).
    by apply elem_of_nil in Hk.
  - split; [exact Hc|]. apply Hg. by vm_compute.
Defined.

(** C10.  [save] appends one line, the dictionary of the two scores and
    the fingerprint updated with the hyperparameters: every entry of the
    hyperparameter set is in the line under its own value, so each of
    [test_mrr], [validation_mrr] and [hash] holds what was given (the
    score, the fingerprint) exactly when the set has no such key, and the
    set's own value otherwise; when the set has no reserved key at all the
    line reports both scores and the fingerprint.  A lookup returns that
    line as written, less its [hash]. *)
Theorem save_hyperparameters_overwrite
    (self : Results.t) (h : dict) (t v : value) (files : Results.fs) :
  wf_dict h ->
  let line := Results.written h t v in
  Results.save self h t v files !! Results._filename self
  = Some (default [] (files !! Results._filename self) ++ [line]) /\
  (forall k x, dict_get k h = Some x -> dict_get k line = Some x) /\
  dict_get "test_mrr" line = Some (default t (dict_get "test_mrr" h)) /\
  dict_get "validation_mrr" line
  = Some (default v (dict_get "validation_mrr" h)) /\
  dict_get "hash" line
  = Some (default (VStr (Results._hash h)) (dict_get "hash" h)) /\
  ((forall k, k ∈ ["test_mrr"; "validation_mrr"; "hash"] ->
              dict_get k h = None) ->
   dict_get "test_mrr" line = Some t /\
   dict_get "validation_mrr" line = Some v /\
   dict_get "hash" line = Some (VStr (Results._hash h))) /\
  (forall lines,
      files !! Results._filename self = Some lines ->
      Results.wf_store lines ->
      dict_get "hash" h = None ->
      Results.__contains__ self h files = Ok false ->
      Results.__getitem__ self h (Results.save self h t v files)
      = Ok (dict_remove "hash" line)).
Proof.
  intros Hwf line. subst line.
  assert (forall k, dict_get k (Results.written h t v)
                    = match dict_get k h with
                      | Some x => Some x
                      | None => dict_get k [("test_mrr", t);
                                            ("validation_mrr", v);
                                            ("hash", VStr (Results._hash h))]
                      end) as Hget.
  { intros k. unfold Results.written. by rewrite dict_get_update. }
  split_and!.
  - apply save_lines.
  - intros k x Hk. by rewrite Hget, Hk.
  - rewrite Hget. by destruct (dict_get "test_mrr" h).
  - rewrite Hget. by destruct (dict_get "validation_mrr" h).
  - rewrite Hget. by destruct (dict_get "hash" h).
  - intros Hres. rewrite !Hget, !Hres; [done|set_solver..].
  - intros lines Hf Hl Hnh Hc. by eapply getitem_save_fresh.
Qed.

(** A hyperparameter set that names a score: the line and the lookup show
    the set's value, not the score that was measured. *)
Lemma save_hyperparameters_overwrite_witness :
  let self := Results.Make "cnn_results.txt" in
  let h := [("lr", VFloat (PyFloat 1 (-1))); ("test_mrr", VStr "mine")] in
  let t := VFloat (PyFloat 5 (-1)) in
  let v := VFloat (PyFloat 4 (-1)) in
  dict_get "test_mrr" (Results.written h t v) = Some (VStr "mine") /\
  Results.__getitem__ self h
    (Results.save self h t v {["cnn_results.txt" := []]})
  = Ok [("test_mrr", VStr "mine"); ("validation_mrr", v);
        ("lr", VFloat (PyFloat 1 (-1)))].
Proof.
  intros self h t v.
  destruct (save_hyperparameters_overwrite self h t v
              {["cnn_results.txt" := []]})
    as (_ & _ & Ht & _ & _ & _ & Hg).
  - unfold wf_dict. apply (bool_decide_unpack _). by vm_compute.
  - split; [exact Ht|].
    rewrite (Hg []); [by vm_compute|done|constructor|by vm_compute..].
Defined.

Section Best.
Import Results.
Implicit Types (self : Results.t) (d : dict) (files : fs).

Lemma mapM_ok {A B} (f : A -> result B) (g : A -> B) (l : list A) :
  Forall (fun x => f x = Ok (g x)) l -> mapM f l = Ok (map g l).
Proof.
  induction 1 as [|x l Hx _ IH]; simpl; [done|]. by rewrite Hx, IH.
Qed.

Lemma combine_map {A B C} (f : A -> B) (g : A -> C) (l : list A) :
  combine (map f l) (map g l) = map (fun x => (f x, g x)) l.
Proof. induction l; simpl; [done|]. by f_equal. Qed.

Lemma lookup_map {A B} (f : A -> B) (l : list A) i :
  map f l !! i = f <$> l !! i.
Proof. apply (list_lookup_fmap f l i). Qed.

Lemma head_map {A B} (f : A -> B) (l : list A) :
  head (map f l) = f <$> head l.
Proof. by destruct l. Qed.

Lemma iter_ok self files lines :
  files !! _filename self = Some lines -> wf_store lines ->
  __iter__ self files = Ok (map (dict_remove "hash") lines).
Proof.
  intros Hf Hwf. unfold __iter__, read_lines. rewrite Hf. simpl.
  apply mapM_ok. eapply Forall_impl; [exact Hwf|].
  intros d [x Hx]. unfold delitem. by rewrite Hx.
Qed.


Lemma sort_key_ok d q :
  score d = Ok q ->
  (let* v := getitem (dict_remove "hash" d) "test_mrr" in neg v)
  = Ok (- score_or_zero d)%Q.
Proof.
  unfold score_or_zero, score, getitem, neg.
  rewrite dict_get_remove_ne by done.
  destruct (dict_get "test_mrr" d) as [x|]; simpl; [|done].
  destruct (to_number x); simpl; [|done]. by intros [= ->].
Qed.

Lemma best_head self files lines :
  files !! _filename self = Some lines ->
  Forall (fun d => has_hash d /\ exists q, score d = Ok q) lines ->
  best self files
  = Ok (snd <$> head (sort_pairs Qltb
          (map (fun d => ((- score_or_zero d)%Q, dict_remove "hash" d))
               lines))).
Proof.
  intros Hf Hwf. unfold best.
  rewrite (iter_ok _ _ lines); [|done|].
  2:{ eapply Forall_impl; [exact Hwf|]. by intros d [? _]. }
  simpl. unfold sorted.
  rewrite (mapM_ok _ (fun x => (- score_or_zero x)%Q)
             (map (dict_remove "hash") lines)).
  2:{ apply Forall_forall. intros x Hx.
      apply list_elem_of_fmap in Hx as (d & -> & Hd).
      rewrite Forall_forall in Hwf. destruct (Hwf d Hd) as [_ [q Hq]].
      rewrite (sort_key_ok d q Hq). f_equal. f_equal.
      unfold score_or_zero, score, getitem.
      by rewrite dict_get_remove_ne. }
  simpl. rewrite map_map, combine_map.
  rewrite (map_ext _ (fun d => ((- score_or_zero d)%Q, dict_remove "hash" d))).
  2:{ intros d. f_equal. f_equal. unfold score_or_zero, score, getitem.
      by rewrite dict_get_remove_ne. }
  rewrite <-head_map.
  by destruct (map snd _).
Qed.

Lemma mapM_Ok_inv {A B} (f : A -> result B) (l : list A) (ys : list B) :
  mapM f l = Ok ys -> Forall2 (fun x y => f x = Ok y) l ys.
Proof.
  revert ys. induction l as [|x l IH]; simpl; intros ys.
  - intros [= <-]. constructor.
  - destruct (f x) as [y|] eqn:Hx; simpl; [|done].
    destruct (mapM f l) as [ys'|]; simpl; [|done].
    intros [= <-]. constructor; [done|]. by apply IH.
Qed.

(** A store that [best] reads without raising has rankable lines only. *)
Lemma best_Ok_rankable results (fls : fs) lines b :
  fls !! _filename results = Some lines ->
  best results fls = Ok b -> Forall rankable lines.
Proof.
  intros Hf. unfold best, __iter__, read_lines, sorted. rewrite Hf. simpl.
  destruct (mapM _ lines) as [xs|] eqn:E1; simpl; [|done].
  destruct (mapM _ xs) as [ks|] eqn:E2; simpl; [|done].
  intros _. apply mapM_Ok_inv in E1, E2. clear Hf.
  revert ks E2. induction E1 as [|d x l xs' Hd _ IH]; intros ks E2.
  { constructor. }
  inversion E2 as [|? k ? ks' Hk E2']; subst.
  constructor; [|by eapply IH].
  unfold delitem in Hd.
  destruct (dict_get "hash" d) as [hv|] eqn:Hh; [|done].
  injection Hd as <-. split; [by eexists|].
  unfold getitem, neg in *. rewrite dict_get_remove_ne in Hk by done.
  destruct (dict_get "test_mrr" d) as [v|]; simpl in *; [|done].
  destruct (to_number v) as [q|]; simpl in *; [by eexists|done].
Qed.



End Best.



Example best_of_none :
  (let* out := Results.__init__ (fun _ => None) "lstm_results.txt" ∅ in
   Results.best (fst out) (snd out))
  = Ok None.
Proof. by vm_compute. Qed.

(** With two lines at the highest score the earlier one is returned. *)
Example best_of_tie :
  Results.best (Results.Make "lstm_results.txt")
    {["lstm_results.txt" :=
        three_lines ++
        [Results.written [("n_iter", VInt 8)] (VFloat (PyFloat 9 (-1)))
           (VFloat (PyFloat 1 (-1)))]]}
  = Ok (Some [("test_mrr", VFloat (PyFloat 9 (-1)));
              ("validation_mrr", VFloat (PyFloat 8 (-1)));
              ("n_iter", VInt 6)]).
Proof. by vm_compute. Qed.

(** A store file that was removed after the object was built. *)
Example best_of_missing :
  Results.best (Results.Make "lstm_results.txt") ∅ = Raise FileNotFoundError.
Proof. by vm_compute. Qed.


(** ** The samplers *)

Section SamplerFacts.
Import Sampler.
Local Open Scope Z_scope.

Lemma len_range n : 0 <= n -> len (range n) = n.
Proof.
  intros. unfold len, range. rewrite length_map, length_seq. lia.
Qed.

Lemma range_bounds n : Forall (fun i => 0 <= i < n) (range n).
Proof.
  unfold range. apply Forall_forall. intros i Hi.
  apply list_elem_of_fmap in Hi as (k & -> & Hk).
  apply elem_of_seq in Hk. lia.
Qed.

Lemma range_NoDup n : NoDup (range n).
Proof.
  unfold range. apply (NoDup_fmap_2 Z.of_nat), NoDup_seq.
Qed.

Lemma first_indices_ok : draws_ok first_indices.
Proof.
  intros pop n r Hn. simpl. split_and!.
  - apply len_range. lia.
  - eapply Forall_impl; [apply range_bounds|]. simpl. lia.
  - apply range_NoDup.
Qed.

Lemma keys_grid_point (items : space) ind :
  keys (grid_point items ind) = map fst items.
Proof.
  revert ind. induction items as [|[k vs] items IH]; intros; simpl; [done|].
  f_equal. apply IH.
Qed.

Lemma nth_elem (vs : list value) i :
  vs <> [] -> nth (Z.to_nat (i mod len vs)) vs VNone ∈ vs.
Proof.
  intros Hvs. apply list_elem_of_In, nth_In.
  assert (0 < len vs) by (unfold len; destruct vs; simpl; [done|lia]).
  pose proof (Z.mod_pos_bound i (len vs)). unfold len in *. lia.
Qed.

(** A point of the grid holds, under every key of the space, one of the
    candidates of that key. *)
Lemma grid_point_lookup (items : space) ind k vs :
  NoDup (map fst items) -> (k, vs) ∈ items -> vs <> [] ->
  exists v, v ∈ vs /\ dict_get k (grid_point items ind) = Some v.
Proof.
  revert ind. induction items as [|[k' vs'] items IH]; intros ind Hnd Hin Hvs.
  { by apply elem_of_nil in Hin. }
  simpl in Hnd. apply NoDup_cons in Hnd as [Hk' Hnd].
  simpl. apply elem_of_cons in Hin as [[= <- <-]|Hin].
  - rewrite String.eqb_refl. eexists. split; [|done]. by apply nth_elem.
  - destruct (String.eqb_spec k k') as [->|]; [|by apply IH].
    destruct Hk'. by apply (list_elem_of_fmap_2 fst _ (k', vs)).
Qed.

(** The product of the sizes, as [grid_point] consumes the index. *)
Lemma grid_point_inj (items : space) i j :
  Forall (fun kv => NoDup (snd kv)) items ->
  0 <= i < grid_size items -> 0 <= j < grid_size items ->
  grid_point items i = grid_point items j -> i = j.
Proof.
  revert i j. induction items as [|[k vs] items IH]; intros i j Hnd Hi Hj Heq.
  { simpl in *. lia. }
  apply Forall_cons in Hnd as [Hvs Hnd]. simpl in *.
  injection Heq as Hhd Htl.
  assert (0 < len vs) as Hpos.
  { destruct (len vs) eqn:E; unfold len in *; lia. }
  assert (0 <= grid_size items) as Hge.
  { clear. induction items as [|[] ? ?]; simpl; [lia|].
    unfold len. apply Z.mul_nonneg_nonneg; [lia|done]. }
  pose proof (Z.mod_pos_bound i (len vs) Hpos).
  pose proof (Z.mod_pos_bound j (len vs) Hpos).
  assert (i mod len vs = j mod len vs) as Hmod.
  { apply (proj1 (NoDup_nth vs VNone)) in Hhd;
      [lia|by apply NoDup_ListNoDup|unfold len in *; lia..]. }
  assert (i / len vs = j / len vs) as Hdiv.
  { apply IH; [done| | |done].
    - split; [apply Z.div_pos; lia|apply Z.div_lt_upper_bound; lia].
    - split; [apply Z.div_pos; lia|apply Z.div_lt_upper_bound; lia]. }
  rewrite (Z.div_mod i (len vs)), (Z.div_mod j (len vs)) by lia.
  by rewrite Hmod, Hdiv.
Qed.

End SamplerFacts.

Section SampledSets.
Import Sampler.
Local Open Scope Z_scope.
Context {rng : Type} (swr : Z -> Z -> rng -> list Z * rng).

Lemma getitem_Ok (sp : space) ind p :
  ParameterGrid_getitem sp ind = Ok p ->
  (0 <= ind < grid_size sp) /\ p = grid_point (grid_items sp) ind.
Proof.
  unfold ParameterGrid_getitem.
  destruct (0 <=? ind) eqn:E1, (ind <? grid_size sp) eqn:E2;
    simpl; intros; simplify_eq. split; [lia|done].
Qed.

(** What [ParameterSampler] yields without raising is a point of the
    grid. *)
Lemma ParameterSampler_item (sp : space) num r p :
  Ok p ∈ fst (ParameterSampler swr sp num r) ->
  exists ind, (0 <= ind < grid_size sp) /\ p = grid_point (grid_items sp) ind.
Proof.
  unfold ParameterSampler. destruct (swr _ _ r) as [idx r']. simpl.
  intros (ind & Hp & _)%list_elem_of_fmap. symmetry in Hp.
  apply getitem_Ok in Hp. eauto.
Qed.

Lemma cnn_item num r h :
  Ok h ∈ fst (sample_cnn_hyperparameters swr r num) ->
  exists ind p, (0 <= ind < grid_size cnn_space) /\
                p = grid_point (grid_items cnn_space) ind /\
                with_dilation p = Ok h.
Proof.
  unfold sample_cnn_hyperparameters.
  destruct (ParameterSampler swr cnn_space num r) as [items r'] eqn:E.
  simpl. intros (item & Hh & Hitem)%list_elem_of_fmap.
  destruct item as [p|e]; simpl in Hh; [|done].
  assert (Ok p ∈ fst (ParameterSampler swr cnn_space num r)) as Hp
    by by rewrite E.
  apply ParameterSampler_item in Hp as (ind & ? & ?). eauto.
Qed.

(** The derivation of the [dilation] field. *)
Lemma with_dilation_ints (p : dict) n m :
  dict_get "num_layers" p = Some (VInt n) ->
  dict_get "dilation_multiplier" p = Some (VInt m) ->
  with_dilation p
  = Ok (dict_setitem "dilation"
          (VList (map (fun i => VInt (m ^ (i mod 8))) (range n))) p).
Proof.
  intros Hn Hm. unfold with_dilation, getitem. rewrite Hn. simpl.
  rewrite (mapM_ok _ (fun i => VInt (m ^ (i mod 8)))); [done|].
  apply Forall_forall. intros i _. by rewrite Hm.
Qed.

Lemma cnn_grid_point_ints ind :
  exists n m,
    (1 <= n <= 9) /\ (m = 1 \/ m = 2) /\
    dict_get "num_layers" (grid_point (grid_items cnn_space) ind)
    = Some (VInt n) /\
    dict_get "dilation_multiplier" (grid_point (grid_items cnn_space) ind)
    = Some (VInt m).
Proof.
  assert (NoDup (map fst (grid_items cnn_space))) as Hnd
    by (apply (bool_decide_unpack _); by vm_compute).
  destruct (grid_point_lookup (grid_items cnn_space) ind "num_layers"
              (map (fun i => VInt (1 + i)) (range 9)) Hnd)
    as (vn & Hvn & Hn); [apply (bool_decide_unpack _); by vm_compute|done|].
  destruct (grid_point_lookup (grid_items cnn_space) ind "dilation_multiplier"
              [VInt 1; VInt 2] Hnd)
    as (vm & Hvm & Hm); [apply (bool_decide_unpack _); by vm_compute|done|].
  apply list_elem_of_fmap in Hvn as (i & -> & Hi).
  pose proof (range_bounds 9) as Hr. rewrite Forall_forall in Hr.
  apply Hr in Hi.
  exists (1 + i).
  apply elem_of_cons in Hvm as [->|Hvm]; [exists 1|exists 2].
  - split_and!; [lia..|by left|done|done].
  - apply list_elem_of_singleton in Hvm as ->.
    split_and!; [lia..|by right|done|done].
Qed.

End SampledSets.

(** C6.  The loop of [sample_cnn_hyperparameters] sets [dilation] to the
    list of [dilation_multiplier ** (i % 8)] for [i] in
    [range(num_layers)]; every set the CNN sampler yields has a
    [num_layers] from 1 to 9, a [dilation_multiplier] of 1 or 2, and a
    [dilation] of [num_layers] entries, the [i]-th being the multiplier
    to the power [i mod 8]; for the multiplier 2 and 10 layers the list is
    [1, 2, 4, 8, 16, 32, 64, 128, 1, 2]. *)
Theorem cnn_dilation_derived :
  (forall (p : dict) (n m : Z),
      dict_get "num_layers" p = Some (VInt n) ->
      dict_get "dilation_multiplier" p = Some (VInt m) ->
      Sampler.with_dilation p
      = Ok (dict_setitem "dilation"
              (VList (map (fun i => VInt (m ^ (i mod 8))%Z) (range n))) p)) /\
  (forall (rng : Type) (swr : Z -> Z -> rng -> list Z * rng) (r : rng)
          (num : Z) (h : dict),
      Ok h ∈ fst (Sampler.sample_cnn_hyperparameters swr r num) ->
      exists (n m : Z) (ds : list value),
        (1 <= n <= 9)%Z /\ (m = 1 \/ m = 2)%Z /\
        dict_get "num_layers" h = Some (VInt n) /\
        dict_get "dilation_multiplier" h = Some (VInt m) /\
        dict_get "dilation" h = Some (VList ds) /\
        Sampler.len ds = n /\
        forall i, (0 <= i < n)%Z ->
                  ds !! Z.to_nat i = Some (VInt (m ^ (i mod 8))%Z)) /\
  Sampler.with_dilation
    [("dilation_multiplier", VInt 2); ("num_layers", VInt 10)]
  = Ok [("dilation_multiplier", VInt 2); ("num_layers", VInt 10);
        ("dilation",
         VList [VInt 1; VInt 2; VInt 4; VInt 8; VInt 16; VInt 32; VInt 64;
                VInt 128; VInt 1; VInt 2])].
Proof.
  split_and!.
  - apply with_dilation_ints.
  - intros rng swr r num h Hh.
    apply cnn_item in Hh as (ind & p & _ & Hp & Hh).
    destruct (cnn_grid_point_ints ind) as (n & m & Hn & Hm & Hgn & Hgm).
    rewrite <-Hp in Hgn, Hgm. clear Hp.
    rewrite (with_dilation_ints _ n m Hgn Hgm) in Hh. injection Hh as <-.
    exists n, m, (map (fun i => VInt (m ^ (i mod 8))%Z) (range n)).
    rewrite !dict_get_setitem. simpl.
    split_and!; [lia..|done|done|done|done| |].
    + unfold Sampler.len. rewrite length_map. apply len_range. lia.
    + intros i Hi. rewrite lookup_map. unfold range.
      rewrite lookup_map, lookup_seq_lt by lia. simpl.
      by rewrite Z2Nat.id by lia.
  - by vm_compute.
Qed.

Lemma cnn_dilation_derived_witness :
  exists (n m : Z) (ds : list value),
    (1 <= n <= 9)%Z /\ (m = 1 \/ m = 2)%Z /\
    dict_get "dilation" (Sampler.grid_point (Sampler.grid_items Sampler.cnn_space) 311039
                           ++ [("dilation",
                                VList [VInt 1; VInt 2; VInt 4; VInt 8; VInt 16;
                                       VInt 32; VInt 64; VInt 128; VInt 1])])
    = Some (VList ds) /\
    Sampler.len ds = n /\
    forall i, (0 <= i < n)%Z ->
              ds !! Z.to_nat i = Some (VInt (m ^ (i mod 8))%Z).
Proof.
  destruct (proj1 (proj2 cnn_dilation_derived) nat
              (fun _ _ r => ([311039%Z], r)) 0%nat 1%Z
              (Sampler.grid_point (Sampler.grid_items Sampler.cnn_space) 311039
                 ++ [("dilation",
                      VList [VInt 1; VInt 2; VInt 4; VInt 8; VInt 16;
                             VInt 32; VInt 64; VInt 128; VInt 1])]))
    as (n & m & ds & Hn & Hm & _ & _ & Hd & Hlen & Hi).
  - apply (bool_decide_unpack _). by vm_compute.
  - exists n, m, ds. exact (conj Hn (conj Hm (conj Hd (conj Hlen Hi)))).
Defined.

Section Draws.
Import Sampler.
Local Open Scope Z_scope.
Context {rng : Type} (swr : Z -> Z -> rng -> list Z * rng).

Lemma grid_size_Permutation (sp sp' : space) :
  sp ≡ₚ sp' -> grid_size sp = grid_size sp'.
Proof. induction 1; simpl; lia. Qed.

Lemma grid_items_Permutation (sp : space) : grid_items sp ≡ₚ sp.
Proof.
  unfold grid_items.
  rewrite <-(sort_pairs_Permutation String.ltb sp) at 2.
  apply Permutation_sym, Permutation_rev.
Qed.

(** Within the grid, [ParameterSampler] yields the points at the drawn
    indices. *)
Lemma ParameterSampler_draws (sp : space) num r :
  draws_ok swr -> 0 <= num <= grid_size sp ->
  exists idx,
    fst (ParameterSampler swr sp num r)
    = map (fun i => Ok (grid_point (grid_items sp) i)) idx /\
    len idx = num /\ Forall (fun i => 0 <= i < grid_size sp) idx /\
    NoDup idx.
Proof.
  intros Hok Hnum. unfold ParameterSampler.
  assert ((grid_size sp <? num) = false) as -> by (apply Z.ltb_ge; lia).
  specialize (Hok (grid_size sp) num r Hnum).
  destruct (swr (grid_size sp) num r) as [idx r']. cbn [fst] in *.
  destruct Hok as (Hlen & Hr & Hnd).
  exists idx. split_and!; [|done..].
  apply map_ext_Forall. eapply Forall_impl; [exact Hr|].
  intros i Hi. unfold ParameterGrid_getitem.
  assert ((0 <=? i) && (i <? grid_size sp) = true) as ->; [|done].
  cbv beta in Hi.
  apply andb_true_intro. split; [apply Z.leb_le|apply Z.ltb_lt]; lia.
Qed.

Lemma grid_points_NoDup (sp : space) idx :
  Forall (fun kv => NoDup (snd kv)) sp ->
  Forall (fun i => 0 <= i < grid_size sp) idx -> NoDup idx ->
  NoDup (map (grid_point (grid_items sp)) idx).
Proof.
  intros Hsp Hr Hnd. apply (NoDup_fmap_2_strong _ idx); [|done].
  rewrite Forall_forall in Hr.
  intros i j Hi Hj Heq. eapply grid_point_inj; [| | |exact Heq].
  - by rewrite grid_items_Permutation.
  - rewrite (grid_size_Permutation _ _ (grid_items_Permutation sp)). auto.
  - rewrite (grid_size_Permutation _ _ (grid_items_Permutation sp)). auto.
Qed.


Lemma cnn_with_dilation ind :
  let p := grid_point (grid_items cnn_space) ind in
  exists x, with_dilation p = Ok (p ++ [("dilation", x)]).
Proof.
  intros p. subst p.
  destruct (cnn_grid_point_ints ind) as (n & m & _ & _ & Hn & Hm).
  rewrite (with_dilation_ints _ n m Hn Hm). eexists.
  rewrite keys_setitem_fresh; [done|].
  rewrite keys_grid_point. apply (bool_decide_unpack _). by vm_compute.
Qed.

Lemma dilated_inj i j :
  dilated (grid_point (grid_items cnn_space) i)
  = dilated (grid_point (grid_items cnn_space) j) ->
  grid_point (grid_items cnn_space) i = grid_point (grid_items cnn_space) j.
Proof.
  unfold dilated.
  destruct (cnn_with_dilation i) as [x ->].
  destruct (cnn_with_dilation j) as [y ->].
  intros Heq. by apply app_inj_tail in Heq as [? _].
Qed.

End Draws.


Example lstm_grid_exhausted :
  Sampler.len (fst (Sampler.sample_lstm_hyperparameters
                      Sampler.first_indices 0%nat 1441))
  = 1440%Z.
Proof. by vm_compute. Qed.

(** C5, counterexample.  The LSTM space has 15 * 1 * 6 * 4 * 4 * 1 = 1440
    points and the draw is without replacement: asked for 1441 sets the
    sampler yields 1440. *)
Lemma sampler_length_counterexample : ~ sampler_length_as_stated.
Proof.
  intros Hclaim.
  specialize (Hclaim nat Sampler.first_indices first_indices_ok 0%nat 1441%Z).
  vm_compute in Hclaim. by specialize (Hclaim ltac:(discriminate)).
Qed.

(** C5, amended.  With an index draw that keeps its contract, and for
    every count from 0 to the number of points of the grid (1440 for the
    LSTM and pooling spaces, 311040 for the CNN space): the sampler yields
    exactly that many hyperparameter sets, none of them raising, and the
    sets are pairwise different (the draw is without replacement); this
    holds of [ParameterSampler] on every space whose candidate lists have
    no repeated value.  The sequence is a function of the state of the
    random number generator: two calls from the same state yield the
    same sequence. *)
Theorem sampler_length_reproducible
    (rng : Type) (swr : Z -> Z -> rng -> list Z * rng) (r : rng) (num : Z) :
  Sampler.draws_ok swr ->
  (forall sp : Sampler.space,
      Forall (fun kv => NoDup (snd kv)) sp ->
      (0 <= num <= Sampler.grid_size sp)%Z ->
      exists hs, fst (Sampler.ParameterSampler swr sp num r) = map Ok hs /\
                 Sampler.len hs = num /\ NoDup hs) /\
  ((0 <= num <= 1440)%Z ->
   exists hs, fst (Sampler.sample_lstm_hyperparameters swr r num) = map Ok hs /\
              Sampler.len hs = num /\ NoDup hs) /\
  ((0 <= num <= 1440)%Z ->
   exists hs, fst (Sampler.sample_pooling_hyperparameters swr r num)
              = map Ok hs /\
              Sampler.len hs = num /\ NoDup hs) /\
  ((0 <= num <= 311040)%Z ->
   exists hs, fst (Sampler.sample_cnn_hyperparameters swr r num) = map Ok hs /\
              Sampler.len hs = num /\ NoDup hs) /\
  (forall r' : rng,
      r' = r ->
      Sampler.sample_lstm_hyperparameters swr r' num
      = Sampler.sample_lstm_hyperparameters swr r num /\
      Sampler.sample_pooling_hyperparameters swr r' num
      = Sampler.sample_pooling_hyperparameters swr r num /\
      Sampler.sample_cnn_hyperparameters swr r' num
      = Sampler.sample_cnn_hyperparameters swr r num).
Proof.
  intros Hok.
  assert (forall sp : Sampler.space,
             Forall (fun kv => NoDup (snd kv)) sp ->
             (0 <= num <= Sampler.grid_size sp)%Z ->
             exists hs, fst (Sampler.ParameterSampler swr sp num r) = map Ok hs /\
                        Sampler.len hs = num /\ NoDup hs) as Hgen.
  { intros sp Hsp Hnum.
    destruct (ParameterSampler_draws swr sp num r Hok Hnum)
      as (idx & -> & Hlen & Hr & Hnd).
    exists (map (Sampler.grid_point (Sampler.grid_items sp)) idx).
    split_and!.
    - by rewrite map_map.
    - unfold Sampler.len in *. by rewrite length_map.
    - by apply grid_points_NoDup. }
  assert (Forall (fun kv : string * list value => NoDup (snd kv))
            Sampler.lstm_space) as Hlstm
    by (apply (bool_decide_unpack _); by vm_compute).
  assert (Forall (fun kv : string * list value => NoDup (snd kv))
            Sampler.cnn_space) as Hcnn
    by (apply (bool_decide_unpack _); by vm_compute).
  split_and!.
  - exact Hgen.
  - intros Hnum. by apply Hgen.
  - intros Hnum. by apply Hgen.
  - intros Hnum. unfold Sampler.sample_cnn_hyperparameters.
    destruct (ParameterSampler_draws swr Sampler.cnn_space num r Hok Hnum)
      as (idx & Hidx & Hlen & Hr & Hnd).
    destruct (Sampler.ParameterSampler swr Sampler.cnn_space num r)
      as [items r'].
    cbn [fst] in Hidx. subst items. cbn [fst].
    exists (map (fun i => Sampler.dilated (Sampler.grid_point
                                     (Sampler.grid_items Sampler.cnn_space) i))
                idx).
    split_and!.
    + rewrite !map_map. apply map_ext. intros i. cbn [bind]. unfold Sampler.dilated.
      by destruct (cnn_with_dilation i) as [x ->].
    + unfold Sampler.len in *. by rewrite length_map.
    + apply (NoDup_fmap_2_strong _ idx); [|done].
      rewrite Forall_forall in Hr.
      intros i j Hi Hj Heq%dilated_inj.
      eapply grid_point_inj; [| | |exact Heq].
      * by rewrite grid_items_Permutation.
      * rewrite (grid_size_Permutation _ _ (grid_items_Permutation _)). auto.
      * rewrite (grid_size_Permutation _ _ (grid_items_Permutation _)). auto.
  - by intros r' ->.
Qed.

Lemma sampler_length_reproducible_witness :
  exists hs,
    fst (Sampler.sample_cnn_hyperparameters Sampler.first_indices 42%nat 10)
    = map Ok hs /\
    Sampler.len hs = 10%Z /\ NoDup hs.
Proof.
  apply (sampler_length_reproducible nat Sampler.first_indices 42%nat 10
           first_indices_ok).
  lia.
Defined.

(** ** The search driver *)


Section DriverFacts.
Import Results Sampler Driver.
Context `{Collaborators}.
Implicit Types (w : world) (h : dict).



Lemma run_unbound {R} train test validation (x : R) model_type tb w family :
  random_state w = None ->
  family_of model_type = Ok family ->
  fst (run train test validation x model_type tb w)
  = match open_error (model_type +:+ "_results.txt") with
    | Some e => Raise e
    | None =>
        match best (Make (model_type +:+ "_results.txt"))
                (touch (model_type +:+ "_results.txt") (files w)) with
        | Ok _ => Raise (NameError "random_state")
        | Raise e => Raise e
        end
    end.
Proof.
  intros Hr Hf.
  unfold run, bindM, on_files, lift, __init__, open_append,
    with_random_state, emit, ret.
  simpl. destruct (open_error _); simpl; [done|].
  destruct (best _ _) as [b|e] eqn:Hb; simpl; [|done].
  rewrite Hf. destruct b; simpl; [rewrite Hb|]; simpl; by rewrite Hr.
Qed.

End DriverFacts.




(** C9.  The parameter [ranomd_state] of [run] is never read: two calls
    that differ in that argument only do the same, whatever the values
    (and their types).  The body reads the module global [random_state]
    instead: with that name unbound, a call that gets as far as the loop
    (a known model type, a store that is opened and that [best] can
    read) raises [NameError]; a call that does not get there raises
    what [open] or [best] raised. *)
Theorem run_ignores_ranomd_state
    `{Driver.Collaborators} (R1 R2 : Type) (x1 : R1) (x2 : R2)
    (train test validation : Driver.dataset)
    (model_type : string) (tb_log_dir : option string) (w : Driver.world) :
  Driver.run train test validation x1 model_type tb_log_dir w
  = Driver.run train test validation x2 model_type tb_log_dir w /\
  (Driver.random_state w = None ->
   forall family,
     Driver.family_of model_type = Ok family ->
     fst (Driver.run train test validation x1 model_type tb_log_dir w)
     = match Driver.open_error (model_type +:+ "_results.txt") with
       | Some e => Raise e
       | None =>
           match Results.best (Results.Make (model_type +:+ "_results.txt"))
                   (Results.touch (model_type +:+ "_results.txt")
                      (Driver.files w)) with
           | Ok _ => Raise (NameError "random_state")
           | Raise e => Raise e
           end
       end).
Proof.
  split; [reflexivity|].
  intros Hr family Hf. by eapply run_unbound.
Qed.

Lemma run_ignores_ranomd_state_witness :
  fst (Driver.run (H := demo) tt tt tt (42%nat) "cnn" (Some "logs")
         (Driver.World (H := demo) ∅ None []))
  = Raise (NameError "random_state").
Proof.
  etrans.
  - apply (proj2 (run_ignores_ranomd_state (H := demo) nat bool 42%nat true
                    tt tt tt "cnn" (Some "logs")
                    (Driver.World (H := demo) ∅ None []))
             eq_refl Driver.Cnn).
    by vm_compute.
  - by vm_compute.
Defined.

(** Without a telemetry directory, a turn of the loop on a set the store
    does not know raises [TypeError] once it has printed the set: the
    evaluator is not called and nothing is saved. *)
Lemma body_without_tb_log_dir
    `{Driver.Collaborators} (results : Results.t)
    (family : Driver.model_family) (train test validation : Driver.dataset)
    (model_type : string) (cnt : Z) (h : dict) (w : Driver.world) :
  Results.__contains__ results h (Driver.files w) = Ok false ->
  Driver.body results family train test validation model_type None cnt h w
  = (Raise TypeError,
     Driver.World (Driver.files w) (Driver.random_state w)
       (Driver.events w ++ [Driver.PrintEvaluating h])).
Proof.
  intros Hc. unfold Driver.body, Driver.bindM, Driver.on_files.
  by rewrite Hc.
Qed.

(** C7, on the code.  Started without [--tb_log_dir] on a new store, the
    run stops at the first candidate: [os.path.join(None, ...)] raises
    [TypeError] before the evaluator is called, and nothing is saved. *)
Theorem run_without_tb_log_dir_raises :
  let out := Driver.run (H := demo) tt tt tt tt "lstm" None fresh in
  fst out = Raise TypeError /\
  Driver.files (snd out) = {["lstm_results.txt" := []]} /\
  Driver.events (snd out)
  = [Driver.PrintEvaluating
       (Sampler.grid_point (Sampler.grid_items Sampler.lstm_space) 0)].
Proof. by vm_compute. Qed.

Section LoopFacts.
Import Results Sampler Driver.
Context `{Collaborators}.
Implicit Types (w : world) (h : dict) (results : Results.t).

Lemma plain_get h k :
  plain h -> k ∈ ["test_mrr"; "validation_mrr"; "hash"] -> dict_get k h = None.
Proof.
  intros [_ Hres] Hk. rewrite Forall_forall in Hres.
  by apply dict_get_None, Hres.
Qed.

(** The samplers yield plain sets. *)
Lemma sample_fnc_plain family r num h :
  Ok h ∈ fst (sample_fnc family r num) -> plain h.
Proof.
  assert (forall ind, plain (grid_point (grid_items lstm_space) ind)) as Hl.
  { intros ind. unfold plain, wf_dict. rewrite keys_grid_point.
    split; apply (bool_decide_unpack _); by vm_compute. }
  destruct family; unfold sample_fnc.
  - intros (ind & _ & ->)%ParameterSampler_item. apply Hl.
  - intros (ind & p & _ & Hp & Hh)%cnn_item.
    destruct (cnn_with_dilation ind) as [x Hx]. cbv zeta in Hx.
    rewrite <-Hp in Hx.
    assert (h = p ++ [("dilation", x)]) as -> by congruence.
    unfold plain, wf_dict, keys. rewrite map_app.
    fold (keys p). rewrite Hp, keys_grid_point.
    split; apply (bool_decide_unpack _); by vm_compute.
  - intros (ind & _ & ->)%ParameterSampler_item. apply Hl.
Qed.

Lemma written_rankable h (t v : pyfloat) :
  plain h -> rankable (written h (VFloat t) (VFloat v)).
Proof.
  intros Hp. split.
  - apply written_has_hash, Hp.
  - exists (float_to_Q t). unfold getitem, written.
    rewrite dict_get_update by apply Hp.
    rewrite (plain_get h "test_mrr") by (done || set_solver). done.
Qed.

(** A turn of the loop on a set the store knows changes nothing. *)
Lemma body_skip results family train test validation model_type tb cnt h w :
  __contains__ results h (files w) = Ok true ->
  body results family train test validation model_type tb cnt h w = (Ok tt, w).
Proof. intros Hc. unfold body, bindM, on_files. by rewrite Hc. Qed.

(** A turn of the loop on a set the store does not know, step by step. *)
Lemma body_miss results family train test validation model_type tb cnt h w :
  __contains__ results h (files w) = Ok false ->
  body results family train test validation model_type tb cnt h w
  = match path_join tb [model_type; "run_" +:+ format_3d cnt] with
    | Raise e =>
        (Raise e,
         World (files w) (random_state w) (events w ++ [PrintEvaluating h]))
    | Ok dir =>
        match random_state w with
        | None =>
            (Raise (NameError "random_state"),
             World (files w) None (events w ++ [PrintEvaluating h]))
        | Some r =>
            let out := eval_fnc family h train test validation r
                         (Some dir) in
            let seen := events w ++ [PrintEvaluating h]
                          ++ [Evaluate family h (Some dir)] in
            match fst out with
            | Raise e => (Raise e, World (files w) (Some (snd out)) seen)
            | Ok mrr =>
                let t := mean (fst mrr) in
                let v := mean (snd mrr) in
                (Ok tt,
                 World (save results h (VFloat t) (VFloat v) (files w))
                   (Some (snd out)) (seen ++ [PrintMRR t v]))
            end
        end
    end.
Proof.
  intros Hc. unfold body, bindM, on_files. rewrite Hc.
  unfold emit at 1. unfold lift at 1.
  destruct (path_join tb _) as [dir|e]; [|done].
  unfold get_random_state. cbn [random_state files events].
  destruct (random_state w) as [r|] eqn:Hr; [|done].
  unfold emit, set_random_state, set_files, lift.
  cbn [random_state files events]. cbv zeta.
  destruct (eval_fnc family h train test validation r (Some dir))
    as [[mrr|e] r'] eqn:He; cbn [fst snd].
  - by rewrite <-!app_assoc.
  - by rewrite <-!app_assoc.
Qed.

(** A turn of the loop that ends well either skipped the set or saved
    it, under the two means the evaluator returned. *)
Lemma body_Ok results family train test validation model_type tb cnt h w w' :
  body results family train test validation model_type tb cnt h w
  = (Ok tt, w') ->
  (__contains__ results h (files w) = Ok true /\ w' = w) \/
  (__contains__ results h (files w) = Ok false /\
   exists t v : pyfloat,
     files w' = save results h (VFloat t) (VFloat v) (files w)).
Proof.
  destruct (__contains__ results h (files w)) as [[|]|e] eqn:Hc.
  - rewrite body_skip by done. intros [= <-]. by left.
  - rewrite body_miss by done.
    destruct (path_join tb _) as [dir|]; [|done].
    destruct (random_state w) as [r|]; [|done]. cbv zeta.
    destruct (fst (eval_fnc _ _ _ _ _ _ _)) as [mrr|]; [|done].
    intros [= <-]. right. split; [done|]. by eexists _, _.
  - unfold body, bindM, on_files. by rewrite Hc.
Qed.

End LoopFacts.

Section RunFacts.
Import Results Sampler Driver.
Context `{Collaborators}.
Implicit Types (w : world) (h : dict) (results : Results.t).

Lemma rankable_wf_store lines : Forall rankable lines -> wf_store lines.
Proof. intros Hr. eapply Forall_impl; [exact Hr|]. by intros d [? _]. Qed.

(** What a loop that ends well leaves behind. *)
Lemma loop_Ok results family train test validation model_type tb items :
  forall cnt w w1 lines,
    Forall (fun item => forall h, item = Ok h -> plain h) items ->
    files w !! _filename results = Some lines -> Forall rankable lines ->
    loop results family train test validation model_type tb cnt items w
    = (Ok tt, w1) ->
    exists lines1,
      files w1 !! _filename results = Some lines1 /\
      Forall rankable lines1 /\
      (forall h, __contains__ results h (files w) = Ok true ->
                 __contains__ results h (files w1) = Ok true) /\
      Forall (fun item => exists h, item = Ok h /\
                __contains__ results h (files w1) = Ok true) items.
Proof.
  induction items as [|item rest IH]; intros cnt w w1 lines Hpl Hf Hr Hloop.
  { injection Hloop as <-. exists lines. by split_and!. }
  apply Forall_cons in Hpl as [Hh Hpl].
  simpl in Hloop. unfold bindM at 1, lift in Hloop.
  destruct item as [h|e]; [|done]. specialize (Hh h eq_refl).
  unfold bindM in Hloop.
  destruct (body results family train test validation model_type tb cnt h w)
    as [[[]|e] w'] eqn:Hb; [|done].
  apply body_Ok in Hb as [[Hc ->]|[Hc (t & v & Hsave)]].
  - destruct (IH _ _ _ _ Hpl Hf Hr Hloop) as (l1 & Hl1 & Hr1 & Hmono & Hall).
    exists l1. split_and!; [done..|]. constructor; [|done]. eauto.
  - assert (files w' !! _filename results
            = Some (lines ++ [written h (VFloat t) (VFloat v)])) as Hf'.
    { by rewrite Hsave, save_lines, Hf. }
    assert (Forall rankable (lines ++ [written h (VFloat t) (VFloat v)]))
      as Hr'.
    { apply Forall_app. split; [done|]. constructor; [|done].
      by apply written_rankable. }
    destruct (IH _ _ _ _ Hpl Hf' Hr' Hloop) as (l1 & Hl1 & Hr1 & Hmono & Hall).
    exists l1. split_and!; [done..| |].
    + intros h0 Hh0. apply Hmono. rewrite Hsave.
      by apply contains_save_other.
    + constructor; [|done]. exists h. split; [done|].
      apply Hmono. rewrite Hsave.
      eapply contains_save; [done|by apply rankable_wf_store|apply Hh|].
      apply plain_get; [done|set_solver].
Qed.

(** Over sets that are all in the store the loop does nothing. *)
Lemma loop_all_known results family train test validation model_type tb
    items :
  forall cnt w,
    Forall (fun item => exists h, item = Ok h /\
              __contains__ results h (files w) = Ok true) items ->
    loop results family train test validation model_type tb cnt items w
    = (Ok tt, w).
Proof.
  induction items as [|item rest IH]; intros cnt w Hall; [done|].
  apply Forall_cons in Hall as [(h & -> & Hc) Hall].
  simpl. unfold bindM at 1, lift. unfold bindM.
  rewrite body_skip by done. by apply IH.
Qed.


(** [run], read as its steps. *)
Lemma run_steps {R} train test validation (x : R) model_type tb w :
  let name := model_type +:+ "_results.txt" in
  let files0 := touch name (files w) in
  run train test validation x model_type tb w
  = match open_error name with
    | Some e => (Raise e, w)
    | None =>
    match best (Make name) files0 with
    | Raise e => (Raise e, World files0 (random_state w) (events w))
    | Ok b =>
        match family_of model_type with
        | Raise e => (Raise e, World files0 (random_state w) (events w))
        | Ok family =>
            let evs := events w ++ best_events model_type b in
            match random_state w with
            | None => (Raise (NameError "random_state"), World files0 None evs)
            | Some r =>
                let items := fst (sample_fnc family r NUM_SAMPLES) in
                let r' := snd (sample_fnc family r NUM_SAMPLES) in
                match loop (Make name) family train test validation
                        model_type tb 0 items (World files0 (Some r') evs) with
                | (Ok _, w1) => (Ok (Make name), w1)
                | (Raise e, w1) => (Raise e, w1)
                end
            end
        end
    end
    end.
Proof.
  intros name files0.
  unfold run, bindM, on_files, lift, __init__, open_append,
    with_random_state, emit, ret.
  simpl. fold name. destruct (open_error name); simpl; [done|].
  fold files0.
  destruct (best (Make name) files0) as [b|e] eqn:Hb; [|done].
  destruct (family_of model_type) as [family|e]; [|done].
  destruct b as [d|]; simpl; rewrite ?Hb; simpl.
  - destruct (random_state w) as [r|]; [|done].
    destruct (sample_fnc family r NUM_SAMPLES) as [items r']. simpl.
    by destruct (loop _ _ _ _ _ _ _ _ _ _) as [[[]|] ?].
  - rewrite app_nil_r. destruct (random_state w) as [r|]; [|by destruct w].
    destruct (sample_fnc family r NUM_SAMPLES) as [items r']. simpl.
    destruct w as [fl rs ev]. simpl.
    by destruct (loop _ _ _ _ _ _ _ _ _ _) as [[[]|] ?].
Qed.

End RunFacts.

Section Rerun.
Import Results Sampler Driver.
Context `{Collaborators}.

(** A run that ended well, started again on the store it left and from
    the same state of the generator, finds every sampled set in the store:
    it ends well, leaves the files as they are and only prints the best
    line. *)
Lemma run_again {R} train test validation (x : R) model_type tb w results w1 :
  run train test validation x model_type tb w = (Ok results, w1) ->
  exists b,
    run train test validation x model_type tb
      (World (files w1) (random_state w) (events w1))
    = (Ok results,
       World (files w1)
         (option_map (fun r => snd (sample_fnc
                                      (match family_of model_type with
                                       | Ok f => f
                                       | Raise _ => Lstm
                                       end) r NUM_SAMPLES))
            (random_state w))
         (events w1 ++ best_events model_type b)).
Proof.
  rewrite !run_steps. cbv zeta. cbn [files random_state events].
  set (name := model_type +:+ "_results.txt").
  destruct (open_error name); [done|].
  destruct (best (Make name) (touch name (files w))) as [b|] eqn:Hb;
    [|done].
  destruct (family_of model_type) as [family|]; [|done].
  destruct (random_state w) as [r|]; [|done].
  destruct (loop _ _ _ _ _ _ _ _ _ _) as [[[]|] w1'] eqn:Hloop; [|done].
  intros [= <- ->].
  pose proof (touch_lookup name (files w)) as Hf0.
  pose proof (best_Ok_rankable (Make name) _ _ _ Hf0 Hb) as Hr0.
  eapply (loop_Ok (Make name)) in Hloop as (lines1 & Hf1 & Hr1 & _ & Hall);
    [|..|exact Hr0]; [| |exact Hf0].
  2:{ apply Forall_forall. intros item Hitem h ->.
      by eapply sample_fnc_plain. }
  rewrite (touch_present name (files w1) lines1) by done.
  rewrite (best_head (Make name) (files w1) lines1) by done.
  eexists. cbn [option_map].
  by rewrite (loop_all_known (Make name)).
Qed.

End Rerun.

(** C1.  In the loop of [run], a sampled set that the store already
    contains is skipped: the turn changes neither the files nor the
    generator and adds no event, so the evaluator is not called and no
    line is written.  And a run that ended well, started again at once
    (on the store it left, the generator in the state it had at the first
    start, so that the same sets are sampled) ends well too, leaves every
    file as it is, and adds no event but the print of the best line. *)
Theorem run_skips_known_sets
    `{Driver.Collaborators} (R : Type)
    (train test validation : Driver.dataset) (ranomd_state : R)
    (model_type : string) (tb_log_dir : option string) :
  (forall (results : Results.t) (family : Driver.model_family) (cnt : Z)
          (h : dict) (w : Driver.world),
      Results.__contains__ results h (Driver.files w) = Ok true ->
      Driver.body results family train test validation model_type
        tb_log_dir cnt h w = (Ok tt, w)) /\
  (forall (w w1 : Driver.world) (results : Results.t),
      Driver.run train test validation ranomd_state model_type tb_log_dir w
      = (Ok results, w1) ->
      let again :=
        Driver.run train test validation ranomd_state model_type tb_log_dir
          (Driver.World (Driver.files w1) (Driver.random_state w)
             (Driver.events w1)) in
      fst again = Ok results /\
      Driver.files (snd again) = Driver.files w1 /\
      exists evs,
        Driver.events (snd again) = Driver.events w1 ++ evs /\
        Forall (fun e => exists b, e = Driver.PrintBest model_type b) evs).
Proof.
  split.
  - intros results family cnt h w Hc. by apply body_skip.
  - intros w w1 results Hrun again. subst again.
    destruct (run_again _ _ _ _ _ _ _ _ _ Hrun) as [b ->]. simpl.
    split_and!; [done..|]. exists (Driver.best_events model_type b).
    split; [done|]. destruct b; repeat constructor. by eexists.
Qed.

Example first_run_fills_store :
  let out := Driver.run (H := demo) tt tt tt tt "lstm" (Some "logs") fresh in
  fst out = Ok (Results.Make "lstm_results.txt") /\
  (length <$> Driver.files (snd out) !! "lstm_results.txt") = Some 100%nat /\
  Driver.random_state (snd out) = Some 101%nat.
Proof. by vm_compute. Qed.

Lemma run_skips_known_sets_witness :
  let w1 := snd (Driver.run (H := demo) tt tt tt tt "lstm" (Some "logs")
                   fresh) in
  let again := Driver.run (H := demo) tt tt tt tt "lstm" (Some "logs")
                 (Driver.World (H := demo) (Driver.files w1) (Some 0%nat)
                    (Driver.events w1)) in
  fst again = Ok (Results.Make "lstm_results.txt") /\
  Driver.files (snd again) = Driver.files w1.
Proof.
  intros w1 again.
  destruct (proj2 (run_skips_known_sets (H := demo) unit tt tt tt tt "lstm"
                     (Some "logs"))
              fresh w1 (Results.Make "lstm_results.txt")) as (Hr & Hf & _).
  - subst w1. by vm_compute.
  - split; [exact Hr|exact Hf].
Defined.

(** * Further properties of the code *)

(** ** Opening, reading and appending *)

Section StoreMore.
Import Results.
Implicit Types (self : Results.t) (h d : dict) (files : fs).

Lemma mapM_app_raise {A B} (f : A -> result B) (pre rest : list A) x e :
  Forall (fun a => exists b, f a = Ok b) pre -> f x = Raise e ->
  mapM f (pre ++ x :: rest) = Raise e.
Proof.
  intros Hpre Hx. induction Hpre as [|a pre [b Hb] _ IH]; simpl.
  - by rewrite Hx.
  - by rewrite Hb, IH.
Qed.

Lemma scan_no_hash params_hash pre d rest :
  Forall (fun d => exists x, dict_get "hash" d = Some x /\
                             eq_str x params_hash = false) pre ->
  dict_get "hash" d = None ->
  scan params_hash (pre ++ d :: rest) = Raise KeyError.
Proof.
  intros Hpre Hd. rewrite scan_app_miss by done. simpl.
  unfold getitem. by rewrite Hd.
Qed.

Lemma scan_all_miss params_hash lines :
  Forall (fun d => exists x, dict_get "hash" d = Some x /\
                             eq_str x params_hash = false) lines ->
  scan params_hash lines = Raise KeyError.
Proof.
  intros Hl. rewrite <-(app_nil_r lines). by rewrite scan_app_miss.
Qed.

End StoreMore.

(** X2.  [save] only appends: it adds exactly one line at the end of its
    own file and touches no other file, and whatever a lookup or a
    membership test of any set answered with a line before the save, it
    answers the same after it. *)
Theorem save_appends_only
    (self : Results.t) (h : dict) (t v : value) (files : Results.fs) :
  let files' := Results.save self h t v files in
  (exists line,
      files' !! Results._filename self
      = Some (default [] (files !! Results._filename self) ++ [line])) /\
  (forall name, name <> Results._filename self ->
                files' !! name = files !! name) /\
  (forall h' r, Results.__getitem__ self h' files = Ok r ->
                Results.__getitem__ self h' files' = Ok r) /\
  (forall h', Results.__contains__ self h' files = Ok true ->
              Results.__contains__ self h' files' = Ok true).
Proof.
  simpl. split_and!.
  - eexists. apply save_lines.
  - intros name Hne. by apply save_other.
  - intros h' r. apply getitem_save_present.
  - intros h'. apply contains_save_other.
Qed.

Lemma save_appends_only_witness :
  let self := Results.Make "lstm_results.txt" in
  let files := {["lstm_results.txt" := three_lines]} in
  Results.__contains__ self [("n_iter", VInt 6)]
    (Results.save self [("n_iter", VInt 9)] (VFloat (PyFloat 1 (-1)))
       (VFloat (PyFloat 1 (-1))) files)
  = Ok true.
Proof.
  intros self files.
  apply (save_appends_only self [("n_iter", VInt 9)] (VFloat (PyFloat 1 (-1)))
           (VFloat (PyFloat 1 (-1))) files).
  by vm_compute.
Defined.

(** X3.  A lookup that finds no line raises [KeyError], which the
    membership test turns into [False]: so it is on every store whose
    lines carry a [hash] other than the fingerprint looked for.  A store
    file that is missing is another matter: [__getitem__], [__iter__] and
    [best] raise [FileNotFoundError], and [__contains__], which catches
    [KeyError] only, raises it too. *)
Theorem lookup_miss
    (self : Results.t) (h : dict) (files : Results.fs) :
  (forall lines,
      files !! Results._filename self = Some lines ->
      Forall (fun d => exists x, dict_get "hash" d = Some x /\
                                 Results.eq_str x (Results._hash h) = false)
             lines ->
      Results.__getitem__ self h files = Raise KeyError /\
      Results.__contains__ self h files = Ok false) /\
  (files !! Results._filename self = None ->
   Results.__getitem__ self h files = Raise FileNotFoundError /\
   Results.__contains__ self h files = Raise FileNotFoundError /\
   Results.__iter__ self files = Raise FileNotFoundError /\
   Results.best self files = Raise FileNotFoundError).
Proof.
  split.
  - intros lines Hf Hmiss.
    unfold Results.__contains__, Results.__getitem__, Results.read_lines.
    rewrite Hf. simpl. by rewrite scan_all_miss.
  - intros Hf.
    unfold Results.__contains__, Results.__getitem__, Results.best,
      Results.__iter__, Results.read_lines.
    by rewrite Hf.
Qed.

Lemma lookup_miss_witness :
  Results.__contains__ (Results.Make "lstm_results.txt")
    [("n_iter", VInt 9)] {["lstm_results.txt" := three_lines]} = Ok false /\
  Results.__contains__ (Results.Make "lstm_results.txt")
    [("n_iter", VInt 9)] ∅ = Raise FileNotFoundError.
Proof.
  destruct (lookup_miss (Results.Make "lstm_results.txt") [("n_iter", VInt 9)]
              {["lstm_results.txt" := three_lines]}) as [Hm _].
  destruct (lookup_miss (Results.Make "lstm_results.txt") [("n_iter", VInt 9)]
              ∅) as [_ Hn].
  split.
  - apply (Hm three_lines); [done|].
    repeat (constructor; [eexists; split; by vm_compute|]). constructor.
  - apply Hn. done.
Defined.

(** X4.  A line without a [hash] field breaks the store from that line
    on: [__iter__] and [best()] raise [KeyError]; and a lookup whose line
    is not among the lines before it raises [KeyError] there, so the
    membership test answers [False] whatever lines follow, also right
    after the set was saved. *)
Theorem line_without_hash
    (self : Results.t) (files : Results.fs) (pre rest : list dict) (d : dict) :
  files !! Results._filename self = Some (pre ++ d :: rest) ->
  Results.wf_store pre ->
  dict_get "hash" d = None ->
  Results.__iter__ self files = Raise KeyError /\
  Results.best self files = Raise KeyError /\
  forall h,
    Forall (fun d => exists x, dict_get "hash" d = Some x /\
                               Results.eq_str x (Results._hash h) = false)
           pre ->
    Results.__getitem__ self h files = Raise KeyError /\
    Results.__contains__ self h files = Ok false /\
    forall t v,
      Results.__contains__ self h (Results.save self h t v files) = Ok false.
Proof.
  intros Hf Hpre Hd.
  assert (Results.__iter__ self files = Raise KeyError) as Hiter.
  { unfold Results.__iter__, Results.read_lines. rewrite Hf. simpl.
    apply mapM_app_raise.
    - eapply Forall_impl; [exact Hpre|]. intros x [y Hy].
      unfold delitem. rewrite Hy. by eexists.
    - unfold delitem. by rewrite Hd. }
  split_and!; [done|unfold Results.best; by rewrite Hiter|].
  intros h Hmiss.
  unfold Results.__contains__, Results.__getitem__, Results.read_lines.
  rewrite Hf. simpl. rewrite scan_no_hash by done. split_and!; [done..|].
  intros t v. rewrite save_lines, Hf. simpl. rewrite <-app_assoc. simpl.
  by rewrite scan_no_hash.
Qed.

Lemma line_without_hash_witness :
  let self := Results.Make "lstm_results.txt" in
  let files := {["lstm_results.txt" := [[("n_iter", VInt 5)]]]} in
  Results.best self files = Raise KeyError /\
  Results.__contains__ self [("n_iter", VInt 7)]
    (Results.save self [("n_iter", VInt 7)] (VInt 0) (VInt 0) files)
  = Ok false.
Proof.
  intros self files.
  destruct (line_without_hash self files [] [] [("n_iter", VInt 5)])
    as (_ & Hb & Hc); [done|constructor|done|].
  split; [exact Hb|].
  destruct (Hc [("n_iter", VInt 7)]) as (_ & _ & Hs); [constructor|].
  apply Hs.
Defined.

(** X5.  On a store whose lines carry a [hash], [__iter__] yields every
    line once, in file order, without its [hash] and with every other
    field as written; and the iteration after a [save] is the iteration
    before it followed by the new line. *)
Theorem iter_in_file_order
    (self : Results.t) (files : Results.fs) (lines : list dict) :
  files !! Results._filename self = Some lines ->
  Results.wf_store lines ->
  exists xs,
    Results.__iter__ self files = Ok xs /\
    length xs = length lines /\
    (forall i d, lines !! i = Some d ->
       exists x, xs !! i = Some x /\
                 forall k, k <> "hash" -> dict_get k x = dict_get k d) /\
    (forall h t v,
        wf_dict h ->
        Results.__iter__ self (Results.save self h t v files)
        = Ok (xs ++ [dict_remove "hash" (Results.written h t v)])).
Proof.
  intros Hf Hwf. exists (map (dict_remove "hash") lines).
  split_and!.
  - by apply iter_ok.
  - by rewrite length_map.
  - intros i d Hd. eexists. rewrite lookup_map, Hd. split; [done|].
    intros k Hk. by apply dict_get_remove_ne.
  - intros h t v Hh.
    rewrite (iter_ok self _ (lines ++ [Results.written h t v])).
    + by rewrite map_app.
    + by rewrite save_lines, Hf.
    + apply Forall_app. split; [done|]. constructor; [|done].
      by apply written_has_hash.
Qed.

Lemma iter_in_file_order_witness :
  exists xs,
    Results.__iter__ (Results.Make "lstm_results.txt")
      {["lstm_results.txt" := three_lines]} = Ok xs /\
    length xs = 3%nat.
Proof.
  destruct (iter_in_file_order (Results.Make "lstm_results.txt")
              {["lstm_results.txt" := three_lines]} three_lines)
    as (xs & Hx & Hlen & _).
  - done.
  - repeat (constructor; [eexists; by vm_compute|]). constructor.
  - exists xs. split; [exact Hx|exact Hlen].
Defined.

(** ** The best line, save after save *)

Section HeadOfSort.
Context {A K : Type} (ltb : K -> K -> bool).
Hypothesis ltb_asym : forall a b, ltb a b = true -> ltb b a = false.
Hypothesis ltb_negtrans :
  forall a b c, ltb a b = false -> ltb b c = false -> ltb a c = false.




End HeadOfSort.

Section BestMore.
Import Results.
Implicit Types (self : Results.t) (h d : dict) (files : fs).



End BestMore.





(** ** What the samplers yield *)

Section SampledMore.
Import Sampler.
Local Open Scope Z_scope.

Lemma grid_items_keys_NoDup (sp : space) :
  NoDup (map fst sp) -> NoDup (map fst (grid_items sp)).
Proof.
  intros Hnd.
  by rewrite (Permutation_map fst (grid_items_Permutation sp)).
Qed.

(** A point of the grid has the keys of the space, each once, and under
    each key one of its candidates. *)
Lemma grid_point_shape (sp : space) ind :
  NoDup (map fst sp) -> Forall (fun kv => snd kv <> []) sp ->
  let p := grid_point (grid_items sp) ind in
  keys p ≡ₚ map fst sp /\ wf_dict p /\
  forall k vs, (k, vs) ∈ sp -> exists v, v ∈ vs /\ dict_get k p = Some v.
Proof.
  intros Hnd Hne p. subst p. unfold wf_dict. rewrite keys_grid_point.
  split_and!.
  - apply Permutation_map, grid_items_Permutation.
  - by apply grid_items_keys_NoDup.
  - intros k vs Hin. apply grid_point_lookup.
    + by apply grid_items_keys_NoDup.
    + by rewrite grid_items_Permutation.
    + rewrite Forall_forall in Hne. by apply (Hne (k, vs)).
Qed.

Lemma with_dilation_other (p h : dict) k :
  with_dilation p = Ok h -> k <> "dilation" -> dict_get k h = dict_get k p.
Proof.
  unfold with_dilation.
  destruct (getitem p "num_layers") as [nl|]; simpl; [|done].
  destruct (range_of nl) as [layers|]; simpl; [|done].
  destruct (mapM _ layers) as [ds|]; simpl; [|done].
  intros [= <-] Hk. rewrite dict_get_setitem.
  by destruct (String.eqb_spec k "dilation").
Qed.

End SampledMore.

(** X8.  Every set [ParameterSampler] yields has exactly the keys of the
    search space, each once, and under each key one of the candidates
    listed for it.  The slices of the source leave one candidate for two
    of the parameters, so every set of the three samplers has
    [batch_size = 256] and [embedding_dim = 8], and its [n_iter] is an
    [int] from 5 to 19. *)
Theorem sampled_sets_shape
    (rng : Type) (swr : Z -> Z -> rng -> list Z * rng) (r : rng) (num : Z) :
  (forall (sp : Sampler.space) (h : dict),
      NoDup (map fst sp) -> Forall (fun kv => snd kv <> []) sp ->
      Ok h ∈ fst (Sampler.ParameterSampler swr sp num r) ->
      keys h ≡ₚ map fst sp /\ wf_dict h /\
      forall k vs, (k, vs) ∈ sp ->
                   exists v, v ∈ vs /\ dict_get k h = Some v) /\
  (forall h : dict,
      Ok h ∈ fst (Sampler.sample_lstm_hyperparameters swr r num) \/
      Ok h ∈ fst (Sampler.sample_pooling_hyperparameters swr r num) \/
      Ok h ∈ fst (Sampler.sample_cnn_hyperparameters swr r num) ->
      dict_get "batch_size" h = Some (VInt 256) /\
      dict_get "embedding_dim" h = Some (VInt 8) /\
      exists n, dict_get "n_iter" h = Some (VInt n) /\ (5 <= n <= 19)%Z).
Proof.
  assert (forall (sp : Sampler.space) (h : dict),
      NoDup (map fst sp) -> Forall (fun kv => snd kv <> []) sp ->
      Ok h ∈ fst (Sampler.ParameterSampler swr sp num r) ->
      keys h ≡ₚ map fst sp /\ wf_dict h /\
      forall k vs, (k, vs) ∈ sp ->
                   exists v, v ∈ vs /\ dict_get k h = Some v) as Hgen.
  { intros sp h Hnd Hne (ind & _ & ->)%ParameterSampler_item.
    by apply grid_point_shape. }
  split; [exact Hgen|].
  assert (forall (sp : Sampler.space) (p : dict),
             (forall k vs, (k, vs) ∈ sp ->
                           exists v, v ∈ vs /\ dict_get k p = Some v) ->
             ("batch_size", Sampler.BATCH_SIZE) ∈ sp ->
             ("embedding_dim", Sampler.EMBEDDING_DIM) ∈ sp ->
             ("n_iter", Sampler.N_ITER) ∈ sp ->
             dict_get "batch_size" p = Some (VInt 256) /\
             dict_get "embedding_dim" p = Some (VInt 8) /\
             exists n, dict_get "n_iter" p = Some (VInt n) /\ (5 <= n <= 19)%Z)
    as Hpin.
  { intros sp p Hp Hb He Hn.
    destruct (Hp _ _ Hb) as (vb & Hvb & ->).
    destruct (Hp _ _ He) as (ve & Hve & ->).
    destruct (Hp _ _ Hn) as (vn & Hvn & ->).
    apply list_elem_of_singleton in Hvb as ->.
    apply list_elem_of_singleton in Hve as ->.
    apply list_elem_of_fmap in Hvn as (i & -> & Hi).
    pose proof (range_bounds 15) as Hr. rewrite Forall_forall in Hr.
    apply Hr in Hi. split_and!; [done..|]. eexists. split; [done|lia]. }
  assert (NoDup (map fst Sampler.lstm_space) /\
          Forall (fun kv : string * list value => snd kv <> [])
            Sampler.lstm_space) as [Hl1 Hl2]
    by (split; apply (bool_decide_unpack _); by vm_compute).
  assert (NoDup (map fst Sampler.cnn_space) /\
          Forall (fun kv : string * list value => snd kv <> [])
            Sampler.cnn_space) as [Hc1 Hc2]
    by (split; apply (bool_decide_unpack _); by vm_compute).
  assert (forall h, Ok h ∈ fst (Sampler.ParameterSampler swr
                                  Sampler.lstm_space num r) ->
                    dict_get "batch_size" h = Some (VInt 256) /\
                    dict_get "embedding_dim" h = Some (VInt 8) /\
                    exists n, dict_get "n_iter" h = Some (VInt n) /\
                              (5 <= n <= 19)%Z) as Hlstm.
  { intros h Hh. destruct (Hgen _ h Hl1 Hl2 Hh) as (_ & _ & Hp).
    apply (Hpin Sampler.lstm_space); [done|..];
      apply (bool_decide_unpack _); by vm_compute. }
  intros h [Hh|[Hh|Hh]]; [by apply Hlstm..|].
  apply cnn_item in Hh as (ind & p & _ & Hp & Hh).
  rewrite !(with_dilation_other p h _ Hh) by done.
  destruct (grid_point_shape Sampler.cnn_space ind Hc1 Hc2) as (_ & _ & Hsh).
  rewrite <-Hp in Hsh.
  apply (Hpin Sampler.cnn_space); [done|..];
    apply (bool_decide_unpack _); by vm_compute.
Qed.

Lemma sampled_sets_shape_witness :
  dict_get "batch_size"
    (Sampler.grid_point (Sampler.grid_items Sampler.lstm_space) 1234)
  = Some (VInt 256).
Proof.
  apply (proj2 (sampled_sets_shape nat (fun _ _ r => ([1234%Z], r)) 0%nat 1)).
  left. apply (bool_decide_unpack _). by vm_compute.
Defined.

(** X9.  The [dilation] of a CNN set stays small: it has at most nine
    entries, each an [int] between 1 and 128, and all of them are 1 when
    [dilation_multiplier] is 1. *)
Theorem cnn_dilation_bounded
    (rng : Type) (swr : Z -> Z -> rng -> list Z * rng) (r : rng) (num : Z)
    (h : dict) :
  Ok h ∈ fst (Sampler.sample_cnn_hyperparameters swr r num) ->
  exists ds,
    dict_get "dilation" h = Some (VList ds) /\
    (1 <= length ds <= 9)%nat /\
    Forall (fun x => exists d, x = VInt d /\ (1 <= d <= 128)%Z) ds /\
    (dict_get "dilation_multiplier" h = Some (VInt 1) ->
     Forall (fun x => x = VInt 1) ds).
Proof.
  intros Hh. apply cnn_item in Hh as (ind & p & _ & Hp & Hh).
  destruct (cnn_grid_point_ints ind) as (n & m & Hn & Hm & Hgn & Hgm).
  rewrite <-Hp in Hgn, Hgm. clear Hp.
  rewrite (with_dilation_ints _ n m Hgn Hgm) in Hh. injection Hh as <-.
  eexists. rewrite !dict_get_setitem. simpl. split_and!; [done| | | |].
  - rewrite length_map. unfold range. rewrite length_map, length_seq. lia.
  - rewrite length_map. unfold range. rewrite length_map, length_seq. lia.
  - apply Forall_forall. intros x (i & -> & Hi)%list_elem_of_fmap.
    eexists. split; [done|].
    pose proof (Z.mod_pos_bound i 8 ltac:(lia)) as Hb.
    destruct Hm as [-> | ->].
    + rewrite Z.pow_1_l by lia. lia.
    + split; [apply (Z.pow_le_mono_r 2 0); lia|].
      apply (Z.pow_le_mono_r 2 _ 7); lia.
  - rewrite Hgm. intros [= ->].
    apply Forall_forall. intros x (i & -> & Hi)%list_elem_of_fmap.
    pose proof (Z.mod_pos_bound i 8 ltac:(lia)) as Hb.
    by rewrite Z.pow_1_l by lia.
Qed.

Lemma cnn_dilation_bounded_witness :
  exists ds,
    dict_get "dilation"
      (Sampler.dilated (Sampler.grid_point
                          (Sampler.grid_items Sampler.cnn_space) 311039))
    = Some (VList ds) /\
    (1 <= length ds <= 9)%nat.
Proof.
  destruct (cnn_dilation_bounded nat (fun _ _ r => ([311039%Z], r)) 0%nat 1
              (Sampler.dilated (Sampler.grid_point
                                  (Sampler.grid_items Sampler.cnn_space)
                                  311039)))
    as (ds & Hd & Hl & _).
  - apply (bool_decide_unpack _). by vm_compute.
  - exists ds. split; [exact Hd|exact Hl].
Defined.

(** X10.  The edges of the [dilation] derivation.  Without [num_layers]
    it raises [KeyError]; with a [num_layers] that is not an [int]
    ([None], a [float], a [str], a list) [range] raises [TypeError]; with
    [num_layers <= 0] the [dilation] is the empty list and
    [dilation_multiplier] is not read at all; with [num_layers >= 1] and
    no [dilation_multiplier] it raises [KeyError].  When it returns, it
    has set [dilation] (replacing an entry of that name) and left every
    other entry as it was. *)
Theorem with_dilation_edges (p : dict) :
  (dict_get "num_layers" p = None ->
   Sampler.with_dilation p = Raise KeyError) /\
  (forall x, dict_get "num_layers" p = Some x ->
             (forall n, x <> VInt n) -> (forall b, x <> VBool b) ->
             Sampler.with_dilation p = Raise TypeError) /\
  (forall n, dict_get "num_layers" p = Some (VInt n) -> (n <= 0)%Z ->
             Sampler.with_dilation p
             = Ok (dict_setitem "dilation" (VList []) p)) /\
  (forall n, dict_get "num_layers" p = Some (VInt n) -> (1 <= n)%Z ->
             dict_get "dilation_multiplier" p = None ->
             Sampler.with_dilation p = Raise KeyError) /\
  (forall h, Sampler.with_dilation p = Ok h ->
             is_Some (dict_get "dilation" h) /\
             forall k, k <> "dilation" -> dict_get k h = dict_get k p).
Proof.
  split_and!.
  - intros Hn. unfold Sampler.with_dilation, getitem. by rewrite Hn.
  - intros x Hx Hi Hb. unfold Sampler.with_dilation, getitem. rewrite Hx.
    simpl. destruct x; simpl; try done; [by destruct (Hb b)|by destruct (Hi z)].
  - intros n Hn Hle. unfold Sampler.with_dilation, getitem. rewrite Hn.
    simpl. unfold range. by replace (Z.to_nat n) with 0%nat by lia.
  - intros n Hn Hge Hm. unfold Sampler.with_dilation, getitem. rewrite Hn.
    simpl. unfold range.
    destruct (Z.to_nat n) as [|k] eqn:Hk; [lia|]. simpl. by rewrite Hm.
  - intros h Hh. split; [|intros k Hk; by eapply with_dilation_other].
    unfold Sampler.with_dilation in Hh.
    destruct (getitem p "num_layers") as [nl|]; simpl in Hh; [|done].
    destruct (Sampler.range_of nl) as [layers|]; simpl in Hh; [|done].
    destruct (mapM _ layers) as [ds|]; simpl in Hh; [|done].
    injection Hh as <-. rewrite dict_get_setitem. simpl. by eexists.
Qed.

Lemma with_dilation_edges_witness :
  Sampler.with_dilation [("num_layers", VInt 0)]
  = Ok [("num_layers", VInt 0); ("dilation", VList [])] /\
  Sampler.with_dilation [("num_layers", VInt 3)] = Raise KeyError /\
  Sampler.with_dilation [("num_layers", VStr "3")] = Raise TypeError.
Proof.
  split_and!.
  - apply (proj1 (proj2 (proj2 (with_dilation_edges [("num_layers", VInt 0)])))
             0%Z); [done|lia].
  - apply (proj1 (proj2 (proj2 (proj2
             (with_dilation_edges [("num_layers", VInt 3)])))) 3%Z);
      [done|lia|done].
  - apply (proj1 (proj2 (with_dilation_edges [("num_layers", VStr "3")]))
             (VStr "3")); done.
Defined.

(** ** The evaluators *)

Section EvaluatorFacts.
Import Results Sampler Driver.
Context `{Collaborators}.
Implicit Types (h : dict) (r : rng).

Local Ltac read_keys h :=
  repeat match goal with
         | |- context [dict_get ?k h] =>
             let E := fresh "E" in
             destruct (dict_get k h) eqn:E; cbn [bind fst snd]
         end.

Local Ltac missing Hk :=
  repeat (apply elem_of_cons in Hk as [->|Hk]; [congruence|]);
  by apply elem_of_nil in Hk.

Lemma read_model_missing h net train test validation dir r k :
  k ∈ model_reads -> dict_get k h = None ->
  read_model h net train test validation dir r = (Raise KeyError, r).
Proof.
  intros Hk Hnone. unfold read_model, bindM, lift, getitem.
  read_keys h; try done; missing Hk.
Qed.

Lemma read_model_all h net train test validation dir r
    loss batch_size learning_rate l2 n_iter :
  dict_get "loss" h = Some loss ->
  dict_get "batch_size" h = Some batch_size ->
  dict_get "learning_rate" h = Some learning_rate ->
  dict_get "l2" h = Some l2 ->
  dict_get "n_iter" h = Some n_iter ->
  read_model h net train test validation dir r
  = fit_and_score
      (ModelArgs loss net batch_size learning_rate l2 n_iter CUDA dir)
      train test validation r.
Proof.
  intros H1 H2 H3 H4 H5. unfold read_model, bindM, lift, getitem.
  by rewrite H1, H2, H3, H4, H5.
Qed.

Lemma evaluate_named_model_end name h train test validation r dir :
  evaluate_named_model name h train test validation r dir
  = read_model h (Named name) train test validation dir r.
Proof. reflexivity. Qed.

Lemma evaluate_cnn_model_missing h train test validation r dir k :
  k ∈ network_reads -> dict_get k h = None ->
  evaluate_cnn_model h train test validation r dir = (Raise KeyError, r).
Proof.
  intros Hk Hnone. unfold evaluate_cnn_model, bindM, lift, getitem.
  cbv zeta.
  destruct (dict_get "embedding_dim" h) eqn:E1; [|done].
  destruct (dict_get "kernel_width" h) eqn:E2; [|done].
  destruct (dict_get "dilation" h) eqn:E3; [|done].
  destruct (dict_get "num_layers" h) eqn:E4; [|done].
  destruct (dict_get "nonlinearity" h) eqn:E5; [|done].
  destruct (dict_get "residual" h) eqn:E6; [|done].
  missing Hk.
Qed.

Lemma evaluate_cnn_model_end h train test validation r dir
    embedding_dim kernel_width dilation num_layers nonlinearity residual :
  dict_get "embedding_dim" h = Some embedding_dim ->
  dict_get "kernel_width" h = Some kernel_width ->
  dict_get "dilation" h = Some dilation ->
  dict_get "num_layers" h = Some num_layers ->
  dict_get "nonlinearity" h = Some nonlinearity ->
  dict_get "residual" h = Some residual ->
  evaluate_cnn_model h train test validation r dir
  = match CNNNet (num_items train) embedding_dim kernel_width dilation
            num_layers nonlinearity residual with
    | Raise e => (Raise e, r)
    | Ok net => read_model h (Net net) train test validation dir r
    end.
Proof.
  intros H1 H2 H3 H4 H5 H6.
  unfold evaluate_cnn_model, bindM at 1 2 3 4 5 6 7, lift at 1 2 3 4 5 6 7,
    getitem.
  cbv zeta. rewrite H1, H2, H3, H4, H5, H6.
  by destruct (CNNNet _ _ _ _ _ _ _).
Qed.

Lemma sampled_reads family r num h :
  Ok h ∈ fst (sample_fnc family r num) ->
  forall k, k ∈ reads family -> is_Some (dict_get k h).
Proof.
  intros Hh k Hk. apply dict_get_is_Some.
  assert (forall ind,
             Forall (fun k => k ∈ keys (grid_point (grid_items lstm_space) ind))
                    (reads Lstm)) as Hl.
  { intros ind. rewrite keys_grid_point.
    apply (bool_decide_unpack _). by vm_compute. }
  destruct family; unfold sample_fnc in Hh.
  - apply ParameterSampler_item in Hh as (ind & _ & ->).
    specialize (Hl ind). rewrite Forall_forall in Hl. by apply Hl.
  - apply cnn_item in Hh as (ind & p & _ & Hp & Hh).
    destruct (cnn_with_dilation ind) as [x Hx]. cbv zeta in Hx.
    rewrite <-Hp in Hx.
    assert (h = p ++ [("dilation", x)]) as -> by congruence.
    unfold keys. rewrite map_app. fold (keys p).
    rewrite Hp, keys_grid_point.
    revert k Hk. apply Forall_forall.
    apply (bool_decide_unpack _). by vm_compute.
  - apply ParameterSampler_item in Hh as (ind & _ & ->).
    specialize (Hl ind). rewrite Forall_forall in Hl. by apply Hl.
Qed.

End EvaluatorFacts.

(** X11.  What the evaluators read, and when.  The LSTM and the pooling
    evaluator read [loss], [batch_size], [learning_rate], [l2] and
    [n_iter]: with one of them missing they raise [KeyError] and the
    generator is as it was; with all there they build the model from the
    values read, the name of the representation, the [CUDA] flag and the
    telemetry directory, fit it on [train] and score it on [test] and on
    [validation].  The CNN evaluator first reads the six hyperparameters
    of the network ([KeyError] when one is missing) and calls
    [CNNNet(train.num_items, ...)] with them; what that call raises is
    raised whether or not the other five are there; only then does it
    read those five and go on as the other evaluators do, with the
    network as the representation.  Every set a sampler yields has all
    the keys the evaluator of its family reads. *)
Theorem evaluator_reads
    `{Driver.Collaborators} (h : dict)
    (train test validation : Driver.dataset) (r : Driver.rng)
    (dir : option string) :
  (forall family name,
     (family, name) ∈ [(Driver.Lstm, "lstm"); (Driver.Pooling, "pooling")] ->
     (forall k, k ∈ Driver.model_reads -> dict_get k h = None ->
                Driver.eval_fnc family h train test validation r dir
                = (Raise KeyError, r)) /\
     (forall loss batch_size learning_rate l2 n_iter,
        dict_get "loss" h = Some loss ->
        dict_get "batch_size" h = Some batch_size ->
        dict_get "learning_rate" h = Some learning_rate ->
        dict_get "l2" h = Some l2 ->
        dict_get "n_iter" h = Some n_iter ->
        Driver.eval_fnc family h train test validation r dir
        = Driver.fit_and_score
            (Driver.ModelArgs loss (Driver.Named name) batch_size
               learning_rate l2 n_iter Driver.CUDA dir)
            train test validation r)) /\
  (forall k, k ∈ Driver.network_reads -> dict_get k h = None ->
             Driver.eval_fnc Driver.Cnn h train test validation r dir
             = (Raise KeyError, r)) /\
  (forall embedding_dim kernel_width dilation num_layers nonlinearity
          residual,
     dict_get "embedding_dim" h = Some embedding_dim ->
     dict_get "kernel_width" h = Some kernel_width ->
     dict_get "dilation" h = Some dilation ->
     dict_get "num_layers" h = Some num_layers ->
     dict_get "nonlinearity" h = Some nonlinearity ->
     dict_get "residual" h = Some residual ->
     match Driver.CNNNet (Driver.num_items train) embedding_dim
             kernel_width dilation num_layers nonlinearity residual with
     | Raise e =>
         Driver.eval_fnc Driver.Cnn h train test validation r dir
         = (Raise e, r)
     | Ok net =>
         (forall k, k ∈ Driver.model_reads -> dict_get k h = None ->
                    Driver.eval_fnc Driver.Cnn h train test validation r dir
                    = (Raise KeyError, r)) /\
         (forall loss batch_size learning_rate l2 n_iter,
            dict_get "loss" h = Some loss ->
            dict_get "batch_size" h = Some batch_size ->
            dict_get "learning_rate" h = Some learning_rate ->
            dict_get "l2" h = Some l2 ->
            dict_get "n_iter" h = Some n_iter ->
            Driver.eval_fnc Driver.Cnn h train test validation r dir
            = Driver.fit_and_score
                (Driver.ModelArgs loss (Driver.Net net) batch_size
                   learning_rate l2 n_iter Driver.CUDA dir)
                train test validation r)
     end) /\
  (forall family r num,
      Ok h ∈ fst (Driver.sample_fnc family r num) ->
      forall k, k ∈ Driver.reads family -> is_Some (dict_get k h)).
Proof.
  split_and!.
  - intros family name Hfam.
    assert (Driver.eval_fnc family h train test validation r dir
            = Driver.read_model h (Driver.Named name) train test validation dir r)
      as ->.
    { apply elem_of_cons in Hfam as [[= -> ->]|Hfam]; [done|].
      apply elem_of_cons in Hfam as [[= -> ->]|Hfam]; [done|].
      by apply elem_of_nil in Hfam. }
    split.
    + intros k. apply read_model_missing.
    + intros. by apply read_model_all.
  - intros k. apply evaluate_cnn_model_missing.
  - intros e kw d n nl res H1 H2 H3 H4 H5 H6.
    change (Driver.eval_fnc Driver.Cnn h train test validation r dir)
      with (Driver.evaluate_cnn_model h train test validation r dir).
    rewrite (evaluate_cnn_model_end h train test validation r dir
               e kw d n nl res) by done.
    destruct (Driver.CNNNet _ _ _ _ _ _ _) as [net|ex]; [|done].
    split.
    + intros k. apply read_model_missing.
    + intros. by apply read_model_all.
  - intros family r0 num. apply sampled_reads.
Qed.

(** An LSTM set handed to the CNN evaluator: [embedding_dim] is there,
    [kernel_width] is not.  And a CNN set without a [loss] and with a
    string as its [kernel_width]: the [TypeError] of [CNNNet] comes
    before the [KeyError]. *)
Lemma evaluator_reads_witness :
  Driver.eval_fnc (H := strict) Driver.Cnn
    (Sampler.grid_point (Sampler.grid_items Sampler.lstm_space) 7)
    tt tt tt 0%nat (Some "logs")
  = (Raise KeyError, 0%nat) /\
  Driver.eval_fnc (H := strict) Driver.Cnn
    [("embedding_dim", VInt 8); ("kernel_width", VStr "3");
     ("dilation", VList [VInt 1]); ("num_layers", VInt 1);
     ("nonlinearity", VStr "relu"); ("residual", VBool true)]
    tt tt tt 0%nat (Some "logs")
  = (Raise TypeError, 0%nat).
Proof.
  split.
  - apply (proj1 (proj2 (evaluator_reads (H := strict)
                    (Sampler.grid_point
                       (Sampler.grid_items Sampler.lstm_space) 7)
                    tt tt tt 0%nat (Some "logs"))) "kernel_width").
    + apply (bool_decide_unpack _). by vm_compute.
    + by vm_compute.
  - apply (proj1 (proj2 (proj2 (evaluator_reads (H := strict)
                    [("embedding_dim", VInt 8); ("kernel_width", VStr "3");
                     ("dilation", VList [VInt 1]); ("num_layers", VInt 1);
                     ("nonlinearity", VStr "relu"); ("residual", VBool true)]
                    tt tt tt 0%nat (Some "logs"))))
             (VInt 8) (VStr "3") (VList [VInt 1]) (VInt 1) (VStr "relu")
             (VBool true) eq_refl eq_refl eq_refl eq_refl eq_refl eq_refl).
Defined.

(** ** What a run does to the store *)

Section RunMore.
Import Results Sampler Driver.
Context `{Collaborators}.
Implicit Types (w : world) (h : dict) (results : Results.t).

(** A turn of the loop, whatever its end: it writes nothing, or it ends
    well on a set that was not in the store and has saved that set. *)
Lemma body_files results family train test validation model_type tb cnt h w
    res w' :
  body results family train test validation model_type tb cnt h w = (res, w') ->
  (files w' = files w /\
   (res = Ok tt -> __contains__ results h (files w) = Ok true)) \/
  (res = Ok tt /\ __contains__ results h (files w) = Ok false /\
   exists t v : pyfloat,
     files w' = save results h (VFloat t) (VFloat v) (files w)).
Proof.
  destruct (__contains__ results h (files w)) as [[|]|e] eqn:Hc.
  - rewrite body_skip by done. intros [= <- <-]. by left.
  - rewrite body_miss by done.
    destruct (path_join tb _) as [dir|]; [|intros [= <- <-]; by left].
    destruct (random_state w) as [r|]; [|intros [= <- <-]; by left].
    cbv zeta.
    destruct (fst (eval_fnc _ _ _ _ _ _ _)) as [mrr|];
      intros [= <- <-]; [|by left].
    right. split_and!; [done..|]. by eexists _, _.
  - unfold body, bindM, on_files. rewrite Hc. intros [= <- <-]. by left.
Qed.

(** The lines a loop appends, whatever its end. *)
Lemma loop_files results family train test validation model_type tb items :
  forall cnt w res w' lines,
    files w !! _filename results = Some lines ->
    loop results family train test validation model_type tb cnt items w
    = (res, w') ->
    exists new,
      files w' !! _filename results = Some (lines ++ new) /\
      (forall name, name <> _filename results ->
                    files w' !! name = files w !! name) /\
      (length new <= length items)%nat /\
      Forall (fun line => exists h (t v : pyfloat),
                Ok h ∈ items /\ line = written h (VFloat t) (VFloat v)) new.
Proof.
  induction items as [|item rest IH]; intros cnt w res w' lines Hf Hloop.
  { injection Hloop as <- <-. exists []. rewrite app_nil_r.
    by split_and!. }
  simpl in Hloop. unfold bindM at 1, lift in Hloop.
  destruct item as [h|e].
  2:{ injection Hloop as <- <-. exists []. rewrite app_nil_r.
      split_and!; [done..|simpl; lia|done]. }
  unfold bindM in Hloop.
  destruct (body results family train test validation model_type tb cnt h w)
    as [[[]|e] w1] eqn:Hb.
  - apply body_files in Hb as [[Hw _]|(_ & _ & t & v & Hsave)].
    + rewrite <-Hw in Hf.
      destruct (IH _ _ _ _ _ Hf Hloop) as (new & Hn & Ho & Hlen & Hall).
      exists new. split_and!; [done| |simpl; lia|].
      * intros name Hne. rewrite <-Hw. by apply Ho.
      * eapply Forall_impl; [exact Hall|].
        intros line (h' & t' & v' & Hin & ->). exists h', t', v'.
        split; [by right|done].
    + assert (files w1 !! _filename results
              = Some (lines ++ [written h (VFloat t) (VFloat v)])) as Hf1.
      { by rewrite Hsave, save_lines, Hf. }
      destruct (IH _ _ _ _ _ Hf1 Hloop) as (new & Hn & Ho & Hlen & Hall).
      exists (written h (VFloat t) (VFloat v) :: new).
      split_and!.
      * by rewrite Hn, <-app_assoc.
      * intros name Hne. rewrite Ho by done. rewrite Hsave.
        by apply save_other.
      * simpl. lia.
      * constructor; [exists h, t, v; split; [left|done]|].
        eapply Forall_impl; [exact Hall|].
        intros line (h' & t' & v' & Hin & ->). exists h', t', v'.
        split; [by right|done].
  - injection Hloop as <- <-.
    apply body_files in Hb as [[Hw _]|(? & _)]; [|done].
    exists []. rewrite app_nil_r, Hw.
    split_and!; [done..|simpl; lia|done].
Qed.

(** The loop keeps the fingerprints of the store apart. *)
Lemma loop_hashes results family train test validation model_type tb items :
  forall cnt w res w' lines,
    Forall (fun item => forall h, item = Ok h -> plain h) items ->
    files w !! _filename results = Some lines ->
    wf_store lines -> NoDup (hash_fields lines) ->
    loop results family train test validation model_type tb cnt items w
    = (res, w') ->
    exists lines',
      files w' !! _filename results = Some lines' /\
      wf_store lines' /\ NoDup (hash_fields lines').
Proof.
  induction items as [|item rest IH];
    intros cnt w res w' lines Hpl Hf Hwf Hnd Hloop.
  { injection Hloop as <- <-. by exists lines. }
  apply Forall_cons in Hpl as [Hh Hpl].
  simpl in Hloop. unfold bindM at 1, lift in Hloop.
  destruct item as [h|e]; [|injection Hloop as <- <-; by exists lines].
  specialize (Hh h eq_refl). unfold bindM in Hloop.
  destruct (body results family train test validation model_type tb cnt h w)
    as [[[]|e] w1] eqn:Hb.
  - apply body_files in Hb as [[Hw _]|(_ & Hc & t & v & Hsave)].
    + rewrite <-Hw in Hf. by eapply IH.
    + eapply (IH _ w1); [done| | | |exact Hloop].
      * by rewrite Hsave, save_lines, Hf.
      * apply Forall_app. split; [done|]. constructor; [|done].
        apply written_has_hash, Hh.
      * unfold hash_fields. rewrite map_app. simpl.
        rewrite written_hash; [|apply Hh|apply plain_get; [done|set_solver]].
        apply NoDup_app. split_and!; [done| |apply NoDup_singleton].
        intros x Hx ->%list_elem_of_singleton.
        apply list_elem_of_fmap in Hx as (d & Hd & Hin).
        pose proof (scan_miss (_hash h) lines Hwf
                      (contains_false_scan results h _ _ Hf Hc)) as Hmiss.
        rewrite Forall_forall in Hmiss.
        destruct (Hmiss d Hin) as (x & Hx & Hne).
        rewrite Hx in Hd. injection Hd as <-. simpl in Hne.
        by rewrite String.eqb_refl in Hne.
  - injection Hloop as <- <-.
    apply body_files in Hb as [[Hw _]|(? & _)]; [|done].
    exists lines. by rewrite Hw.
Qed.

(** Without a telemetry directory the loop ends well only by skipping. *)
Lemma loop_None_Ok results family train test validation model_type items :
  forall cnt w w',
    loop results family train test validation model_type None cnt items w
    = (Ok tt, w') ->
    w' = w /\
    Forall (fun item => exists h, item = Ok h /\
              __contains__ results h (files w) = Ok true) items.
Proof.
  induction items as [|item rest IH]; intros cnt w w' Hloop.
  { by injection Hloop as <-. }
  simpl in Hloop. unfold bindM at 1, lift in Hloop.
  destruct item as [h|e]; [|done]. unfold bindM in Hloop.
  destruct (__contains__ results h (files w)) as [[|]|e] eqn:Hc.
  - rewrite body_skip in Hloop by done.
    destruct (IH _ _ _ Hloop) as [-> Hall]. split; [done|].
    constructor; [by eexists|done].
  - by rewrite body_without_tb_log_dir in Hloop.
  - unfold body, bindM, on_files in Hloop. by rewrite Hc in Hloop.
Qed.

End RunMore.

Section RunTheorems.
Import Results Sampler Driver.
Context `{Collaborators}.

Lemma grid_size_nonneg (sp : space) : (0 <= grid_size sp)%Z.
Proof.
  induction sp as [|[k vs] sp IH]; simpl; [lia|].
  unfold len. apply Z.mul_nonneg_nonneg; lia.
Qed.

Lemma ParameterSampler_at_most (sp : space) num r :
  draws_ok sample_without_replacement -> (0 <= num)%Z ->
  (length (fst (ParameterSampler sample_without_replacement sp num r))
   <= Z.to_nat num)%nat.
Proof.
  intros Hok Hnum. unfold ParameterSampler.
  pose proof (grid_size_nonneg sp) as Hg.
  set (n := if (grid_size sp <? num)%Z then grid_size sp else num).
  assert (0 <= n <= grid_size sp /\ n <= num)%Z as [Hn Hle].
  { subst n. destruct (Z.ltb_spec (grid_size sp) num); lia. }
  specialize (Hok (grid_size sp) n r Hn).
  destruct (sample_without_replacement (grid_size sp) n r) as [idx r'].
  cbn [fst] in *. destruct Hok as (Hlen & _ & _).
  rewrite length_map. unfold len in Hlen. lia.
Qed.

Lemma sample_fnc_at_most family r num :
  draws_ok sample_without_replacement -> (0 <= num)%Z ->
  (length (fst (sample_fnc family r num)) <= Z.to_nat num)%nat.
Proof.
  intros Hok Hnum. destruct family; unfold sample_fnc.
  - by apply ParameterSampler_at_most.
  - unfold sample_cnn_hyperparameters.
    pose proof (ParameterSampler_at_most cnn_space num r Hok Hnum) as Hle.
    destruct (ParameterSampler _ cnn_space num r) as [items r'].
    cbn [fst] in *. by rewrite length_map.
  - by apply ParameterSampler_at_most.
Qed.

End RunTheorems.

(** X12.  A turn of the loop writes only after a successful evaluation:
    a turn that raises (in the membership test, in [os.path.join], in the
    lookup of [random_state], in the evaluator) leaves every file as it
    was, and a turn that ends well has either skipped a set the store
    contains or appended the one line of its set. *)
Theorem turn_writes_after_success
    `{Driver.Collaborators} (results : Results.t)
    (family : Driver.model_family) (train test validation : Driver.dataset)
    (model_type : string) (tb_log_dir : option string) (cnt : Z) (h : dict)
    (w w' : Driver.world) (res : result unit) :
  Driver.body results family train test validation model_type tb_log_dir
    cnt h w = (res, w') ->
  (forall e, res = Raise e -> Driver.files w' = Driver.files w) /\
  (res = Ok tt ->
   (Results.__contains__ results h (Driver.files w) = Ok true /\
    Driver.files w' = Driver.files w) \/
   (Results.__contains__ results h (Driver.files w) = Ok false /\
    exists t v : pyfloat,
      Driver.files w'
      = Results.save results h (VFloat t) (VFloat v) (Driver.files w))).
Proof.
  intros Hb. apply body_files in Hb as [[Hw Hc]|(-> & Hc & Hs)].
  - split; [done|]. intros Hr. left. auto.
  - split; [done|]. intros _. by right.
Qed.

Lemma turn_writes_after_success_witness :
  let out :=
    Driver.body (H := diverging) (Results.Make "lstm_results.txt") Driver.Lstm
      tt tt tt "lstm" (Some "logs") 0
      (Sampler.grid_point (Sampler.grid_items Sampler.lstm_space) 0)
      (Driver.World (H := diverging) {["lstm_results.txt" := []]}
         (Some 0%nat) []) in
  fst out = Raise (ValueError "Degenerate epoch loss") /\
  Driver.files (snd out) = {["lstm_results.txt" := []]}.
Proof.
  intros out. split; [by vm_compute|].
  apply (proj1 (turn_writes_after_success (H := diverging)
                  (Results.Make "lstm_results.txt") Driver.Lstm tt tt tt
                  "lstm" (Some "logs") 0
                  (Sampler.grid_point (Sampler.grid_items Sampler.lstm_space) 0)
                  (Driver.World (H := diverging) {["lstm_results.txt" := []]}
                     (Some 0%nat) [])
                  (snd out) (fst out) (surjective_pairing out))
           (ValueError "Degenerate epoch loss")).
  by vm_compute.
Defined.

(** X13.  A run only appends to its own store, however it ends.  When
    the system refuses to open the store file, the run raises what
    [open] raised and nothing has changed.  Otherwise the file
    [<model_type>_results.txt] keeps the lines it had, in order, followed
    by the lines written (a missing file counts as empty), and every
    other file is as it was.  Each new line is the line [save] writes for
    a plain hyperparameter set, with [float] scores; and with an index
    draw that keeps its contract there are at most [NUM_SAMPLES = 100] of
    them. *)
Theorem run_appends_only
    `{Driver.Collaborators} (R : Type)
    (train test validation : Driver.dataset) (ranomd_state : R)
    (model_type : string) (tb_log_dir : option string)
    (w w' : Driver.world) (res : result Results.t) :
  Driver.run train test validation ranomd_state model_type tb_log_dir w
  = (res, w') ->
  let name := model_type +:+ "_results.txt" in
  match Driver.open_error name with
  | Some e => res = Raise e /\ w' = w
  | None =>
      exists new,
        Driver.files w' !! name
        = Some (default [] (Driver.files w !! name) ++ new) /\
        (forall other, other <> name ->
                       Driver.files w' !! other = Driver.files w !! other) /\
        Forall (fun line => exists h (t v : pyfloat),
                  Results.plain h /\
                  line = Results.written h (VFloat t) (VFloat v)) new /\
        (Sampler.draws_ok Driver.sample_without_replacement ->
         (length new <= 100)%nat)
  end.
Proof.
  intros Hrun name. rewrite run_steps in Hrun. cbv zeta in Hrun.
  fold name in Hrun.
  destruct (Driver.open_error name) as [e0|];
    [by injection Hrun as <- <-|].
  pose proof (touch_lookup name (Driver.files w)) as Hf0.
  pose proof (fun other => touch_other name other (Driver.files w))
    as Ho0.
  assert (forall rs evs,
             exists new,
               Driver.files (Driver.World
                               (Results.touch name (Driver.files w))
                               rs evs) !! name
               = Some (default [] (Driver.files w !! name) ++ new) /\
               (forall other, other <> name ->
                  Driver.files (Driver.World
                                  (Results.touch name (Driver.files w))
                                  rs evs) !! other
                  = Driver.files w !! other) /\
               Forall (fun line => exists h (t v : pyfloat),
                         Results.plain h /\
                         line = Results.written h (VFloat t) (VFloat v)) new /\
               (Sampler.draws_ok Driver.sample_without_replacement ->
                (length new <= 100)%nat)) as Hstop.
  { intros rs evs. exists []. rewrite app_nil_r. simpl.
    split_and!; [done|done|done|simpl; lia]. }
  destruct (Results.best _ _) as [b|e]; [|injection Hrun as <- <-; apply Hstop].
  destruct (Driver.family_of model_type) as [family|e];
    [|injection Hrun as <- <-; apply Hstop].
  destruct (Driver.random_state w) as [r|];
    [|injection Hrun as <- <-; apply Hstop].
  destruct (Driver.loop _ _ _ _ _ _ _ _ _ _) as [lres w1] eqn:Hloop.
  assert (w' = w1) as -> by (destruct lres as [[]|]; by injection Hrun).
  eapply (loop_files (Results.Make name)) in Hloop
    as (new & Hn & Ho & Hlen & Hall); [|exact Hf0].
  exists new. split_and!.
  - done.
  - intros other Hne. rewrite Ho by done. by apply Ho0.
  - eapply Forall_impl; [exact Hall|].
    intros line (h & t & v & Hin & ->). exists h, t, v. split; [|done].
    by eapply sample_fnc_plain.
  - intros Hok.
    pose proof (sample_fnc_at_most family r Sampler.NUM_SAMPLES Hok
                  ltac:(done)) as Hle.
    change (Z.to_nat Sampler.NUM_SAMPLES) with 100%nat in Hle. lia.
Qed.

(** A run whose training fails, next to the store of another family;
    and a run whose store lies in a directory that does not exist. *)
Lemma run_appends_only_witness :
  let w0 := Driver.World (H := diverging)
              {["lstm_results.txt" := three_lines]} (Some 0%nat) [] in
  let w' := snd (Driver.run (H := diverging) tt tt tt tt "cnn" (Some "logs")
                   w0) in
  let u0 := Driver.World (H := no_directory)
              {["lstm_results.txt" := three_lines]} (Some 0%nat) [] in
  let out := Driver.run (H := no_directory) tt tt tt tt "a/cnn" (Some "logs")
               u0 in
  (exists new,
     Driver.files w' !! "cnn_results.txt" = Some ([] ++ new) /\
     Driver.files w' !! "lstm_results.txt" = Some three_lines) /\
  fst out = Raise FileNotFoundError /\ snd out = u0.
Proof.
  intros w0 w' u0 out. split.
  - destruct (run_appends_only (H := diverging) unit tt tt tt tt "cnn"
                (Some "logs") w0 w'
                (fst (Driver.run (H := diverging) tt tt tt tt "cnn"
                        (Some "logs") w0)))
      as (new & Hn & Ho & _).
    + apply surjective_pairing.
    + exists new. split; [exact Hn|]. by apply Ho.
  - apply (run_appends_only (H := no_directory) unit tt tt tt tt "a/cnn"
             (Some "logs") u0 (snd out) (fst out)).
    apply surjective_pairing.
Defined.

(** X14.  A run never writes a fingerprint twice.  If the lines of the
    store all carry a [hash] and no two of them the same one, then so it
    is after the run, however the run ends: a sampled set is evaluated and
    saved only when no line has its fingerprint yet, also when the sampler
    yields the same set more than once.  (A run that cannot open its
    store raises what [open] raised and changes nothing.) *)
Theorem run_keeps_fingerprints_apart
    `{Driver.Collaborators} (R : Type)
    (train test validation : Driver.dataset) (ranomd_state : R)
    (model_type : string) (tb_log_dir : option string)
    (w w' : Driver.world) (res : result Results.t) :
  let name := model_type +:+ "_results.txt" in
  Results.wf_store (default [] (Driver.files w !! name)) ->
  NoDup (Results.hash_fields (default [] (Driver.files w !! name))) ->
  Driver.run train test validation ranomd_state model_type tb_log_dir w
  = (res, w') ->
  match Driver.open_error name with
  | Some e => res = Raise e /\ w' = w
  | None =>
      exists lines',
        Driver.files w' !! name = Some lines' /\
        Results.wf_store lines' /\ NoDup (Results.hash_fields lines')
  end.
Proof.
  intros name Hwf Hnd Hrun. rewrite run_steps in Hrun. cbv zeta in Hrun.
  fold name in Hrun.
  destruct (Driver.open_error name) as [e0|];
    [by injection Hrun as <- <-|].
  pose proof (touch_lookup name (Driver.files w)) as Hf0.
  destruct (Results.best _ _) as [b|e];
    [|injection Hrun as <- <-; by eexists].
  destruct (Driver.family_of model_type) as [family|e];
    [|injection Hrun as <- <-; by eexists].
  destruct (Driver.random_state w) as [r|];
    [|injection Hrun as <- <-; by eexists].
  destruct (Driver.loop _ _ _ _ _ _ _ _ _ _) as [lres w1] eqn:Hloop.
  assert (w' = w1) as -> by (destruct lres as [[]|]; by injection Hrun).
  eapply (loop_hashes (Results.Make name)) in Hloop;
    [exact Hloop| |exact Hf0|exact Hwf|exact Hnd].
  apply Forall_forall. intros item Hitem h ->. by eapply sample_fnc_plain.
Qed.

Lemma run_keeps_fingerprints_apart_witness :
  let out := Driver.run (H := repeating) tt tt tt tt "pooling" (Some "logs")
               (Driver.World (H := repeating) ∅ (Some 0%nat) []) in
  exists lines',
    Driver.files (snd out) !! "pooling_results.txt" = Some lines' /\
    Results.wf_store lines' /\ NoDup (Results.hash_fields lines').
Proof.
  intros out.
  apply (run_keeps_fingerprints_apart (H := repeating) unit tt tt tt tt
           "pooling" (Some "logs")
           (Driver.World (H := repeating) ∅ (Some 0%nat) [])
           (snd out) (fst out)).
  - constructor.
  - constructor.
  - apply surjective_pairing.
Defined.

Example repeated_set_saved_once :
  let out := Driver.run (H := repeating) tt tt tt tt "pooling" (Some "logs")
               (Driver.World (H := repeating) ∅ (Some 0%nat) []) in
  fst out = Ok (Results.Make "pooling_results.txt") /\
  (length <$> Driver.files (snd out) !! "pooling_results.txt") = Some 1%nat.
Proof. by vm_compute. Qed.

(** X15.  Without a telemetry directory ([tb_log_dir = None]) a run ends
    well only when there was nothing to evaluate: the model type is known,
    [random_state] is bound, every set the sampler yielded was already in
    the store, and the run has written nothing (it has at most created
    the empty store file). *)
Theorem run_without_tb_log_dir_skips_only
    `{Driver.Collaborators} (R : Type)
    (train test validation : Driver.dataset) (ranomd_state : R)
    (model_type : string) (w w' : Driver.world) (results : Results.t) :
  Driver.run train test validation ranomd_state model_type None w
  = (Ok results, w') ->
  let name := model_type +:+ "_results.txt" in
  exists family r,
    Driver.family_of model_type = Ok family /\
    Driver.random_state w = Some r /\
    Driver.files w' = Results.touch name (Driver.files w) /\
    Forall (fun item => exists h,
              item = Ok h /\
              Results.__contains__ results h (Driver.files w') = Ok true)
           (fst (Driver.sample_fnc family r Sampler.NUM_SAMPLES)).
Proof.
  intros Hrun name. rewrite run_steps in Hrun. cbv zeta in Hrun.
  fold name in Hrun.
  destruct (Driver.open_error name); [done|].
  destruct (Results.best _ _) as [b|e]; [|done].
  destruct (Driver.family_of model_type) as [family|e]; [|done].
  destruct (Driver.random_state w) as [r|]; [|done].
  destruct (Driver.loop _ _ _ _ _ _ _ _ _ _) as [[[]|] w1] eqn:Hloop; [|done].
  injection Hrun as <- <-.
  apply loop_None_Ok in Hloop as [-> Hall].
  exists family, r. by split_and!.
Qed.

Lemma run_without_tb_log_dir_skips_only_witness :
  let w1 := snd (Driver.run (H := demo) tt tt tt tt "lstm" (Some "logs")
                   fresh) in
  let w2 := Driver.World (H := demo) (Driver.files w1) (Some 0%nat) [] in
  let again := Driver.run (H := demo) tt tt tt tt "lstm" None w2 in
  Driver.files (snd again)
  = Results.touch ("lstm" +:+ "_results.txt") (Driver.files w2).
Proof.
  intros w1 w2 again.
  destruct (run_without_tb_log_dir_skips_only (H := demo) unit tt tt tt tt
              "lstm" w2 (snd again) (Results.Make "lstm_results.txt"))
    as (family & r & _ & _ & Hf & _).
  - by vm_compute.
  - exact Hf.
Defined.

Section Trace.
Import Results Sampler Driver.
Context `{Collaborators}.
Implicit Types (w : world) (h : dict) (results : Results.t).

Lemma body_trace results family train test validation model_type tb cnt h w
    w' :
  body results family train test validation model_type tb cnt h w
  = (Ok tt, w') ->
  (__contains__ results h (files w) = Ok true /\ w' = w) \/
  (__contains__ results h (files w) = Ok false /\
   exists x : trial,
     fst (fst (fst x)) = h /\
     files w' = write_line (_filename results) (trial_line x) (files w) /\
     events w' = events w ++ trial_events family x).
Proof.
  destruct (__contains__ results h (files w)) as [[|]|e] eqn:Hc.
  - rewrite body_skip by done. intros [= <-]. by left.
  - rewrite body_miss by done.
    destruct (path_join tb _) as [dir|]; [|done].
    destruct (random_state w) as [r|]; [|done]. cbv zeta.
    destruct (fst (eval_fnc _ _ _ _ _ _ _)) as [mrr|]; [|done].
    intros [= <-]. right. split; [done|].
    exists (h, dir, mean (fst mrr), mean (snd mrr)).
    cbn [files events]. split_and!; [done..|].
    by rewrite <-!app_assoc.
  - unfold body, bindM, on_files. by rewrite Hc.
Qed.

Lemma loop_trace results family train test validation model_type tb items :
  forall cnt w w1 lines,
    files w !! _filename results = Some lines ->
    loop results family train test validation model_type tb cnt items w
    = (Ok tt, w1) ->
    exists trials : list trial,
      files w1 !! _filename results = Some (lines ++ map trial_line trials) /\
      events w1 = events w ++ flat_map (trial_events family) trials /\
      Forall (fun x => Ok (fst (fst (fst x))) ∈ items) trials.
Proof.
  induction items as [|item rest IH]; intros cnt w w1 lines Hf Hloop.
  { injection Hloop as <-. exists []. simpl. by rewrite !app_nil_r. }
  simpl in Hloop. unfold bindM at 1, lift in Hloop.
  destruct item as [h|e]; [|done]. unfold bindM in Hloop.
  destruct (body results family train test validation model_type tb cnt h w)
    as [[[]|e] w'] eqn:Hb; [|done].
  apply body_trace in Hb as [[_ ->]|(_ & x & Hx & Hfx & Hex)].
  - destruct (IH _ _ _ _ Hf Hloop) as (trials & Hl & He & Hall).
    exists trials. split_and!; [done..|].
    eapply Forall_impl; [exact Hall|]. intros y Hy. by right.
  - assert (files w' !! _filename results = Some (lines ++ [trial_line x]))
      as Hf'.
    { rewrite Hfx. unfold write_line. by rewrite lookup_insert_eq, Hf. }
    destruct (IH _ _ _ _ Hf' Hloop) as (trials & Hl & He & Hall).
    exists (x :: trials). simpl. split_and!.
    + by rewrite Hl, <-app_assoc.
    + by rewrite He, Hex, <-app_assoc.
    + constructor; [rewrite Hx; left|].
      eapply Forall_impl; [exact Hall|]. intros y Hy. by right.
Qed.

End Trace.

(** X16.  In a run that ended well the trace and the store tell the same
    story.  After the print of the best line (when the store was not
    empty), the events are, for each trial carried through and in order,
    the print of the set, the call of the evaluator of the family on that
    set with a telemetry directory, and the print of the two means; the
    lines appended to the store are, in the same order, the lines of
    those trials, under the very means that were printed.  Every trial is
    of a set the sampler yielded, and every such set is in the store when
    the run returns. *)
Theorem run_trace_matches_store
    `{Driver.Collaborators} (R : Type)
    (train test validation : Driver.dataset) (ranomd_state : R)
    (model_type : string) (tb_log_dir : option string)
    (w w1 : Driver.world) (results : Results.t) :
  Driver.run train test validation ranomd_state model_type tb_log_dir w
  = (Ok results, w1) ->
  let name := model_type +:+ "_results.txt" in
  exists family r b (trials : list Driver.trial),
    Driver.family_of model_type = Ok family /\
    Driver.random_state w = Some r /\
    Driver.files w1 !! name
    = Some (default [] (Driver.files w !! name)
            ++ map Driver.trial_line trials) /\
    Driver.events w1
    = Driver.events w ++ Driver.best_events model_type b
      ++ flat_map (Driver.trial_events family) trials /\
    Forall (fun x => Ok (fst (fst (fst x)))
                     ∈ fst (Driver.sample_fnc family r Sampler.NUM_SAMPLES))
           trials /\
    Forall (fun item => exists h,
              item = Ok h /\
              Results.__contains__ results h (Driver.files w1) = Ok true)
           (fst (Driver.sample_fnc family r Sampler.NUM_SAMPLES)).
Proof.
  intros Hrun name. rewrite run_steps in Hrun. cbv zeta in Hrun.
  fold name in Hrun.
  destruct (Driver.open_error name); [done|].
  pose proof (touch_lookup name (Driver.files w)) as Hf0.
  destruct (Results.best _ _) as [b|e] eqn:Hb; [|done].
  destruct (Driver.family_of model_type) as [family|e]; [|done].
  destruct (Driver.random_state w) as [r|]; [|done].
  destruct (Driver.loop _ _ _ _ _ _ _ _ _ _) as [[[]|] w1'] eqn:Hloop; [|done].
  injection Hrun as <- <-.
  pose proof Hloop as Hloop'.
  eapply (loop_trace (Results.Make name)) in Hloop
    as (trials & Hl & He & Hall); [|exact Hf0].
  eapply (loop_Ok (Results.Make name)) in Hloop'
    as (lines1 & _ & _ & _ & Hknown);
    [| |exact Hf0|exact (best_Ok_rankable (Results.Make name) _ _ _ Hf0 Hb)].
  2:{ apply Forall_forall. intros item Hitem h ->.
      by eapply sample_fnc_plain. }
  exists family, r, b, trials. simpl in He.
  split_and!; [done..|by rewrite He, <-app_assoc|done|done].
Qed.

Lemma run_trace_matches_store_witness :
  let out := Driver.run (H := repeating) tt tt tt tt "pooling" (Some "logs")
               (Driver.World (H := repeating) ∅ (Some 0%nat) []) in
  exists b (trials : list Driver.trial),
    Driver.files (snd out) !! "pooling_results.txt"
    = Some ([] ++ map Driver.trial_line trials) /\
    Driver.events (snd out)
    = [] ++ Driver.best_events "pooling" b
      ++ flat_map (Driver.trial_events Driver.Pooling) trials.
Proof.
  intros out.
  destruct (run_trace_matches_store (H := repeating) unit tt tt tt tt
              "pooling" (Some "logs")
              (Driver.World (H := repeating) ∅ (Some 0%nat) [])
              (snd out) (Results.Make "pooling_results.txt"))
    as (family & r & b & trials & Hfam & _ & Hl & He & _).
  - subst out. by vm_compute.
  - injection Hfam as <-. exists b, trials. split; [exact Hl|exact He].
Defined.
